(** * hugo.core.middleware: the middleware pipeline, embedded and verified

    The development follows [src/hugo/core/middleware.py].  Python values
    live in an inductive type [Value]; objects with identity (middleware
    instances, contexts, state instances) live in a heap addressed by
    [VRef]; every function of the module is a computation in a state and
    exception monad over that heap.  Calls that the module makes into code
    it does not own (the wrapped coroutine functions, the terminal [next],
    [run] methods of user subclasses, the special methods [__eq__],
    [__new__] and [__init__] of user classes) go through an environment of
    bodies that is a parameter of the semantics. *)

From Stdlib Require Import ZArith.
From stdpp Require Import base option strings list gmap.

Local Open Scope string_scope.
Local Open Scope list_scope.

(** ** Classes *)

(** [MiddlewareResult]: the two enum members. *)
Inductive MiddlewareResult := OK | IGNORE.

(** The classes that the module mentions, and classes derived from them
    by single inheritance: [TyUser name base methods] is
    [class name(base)], and [methods] lists the methods that its body
    defines among [run], [__eq__], [__bool__], [__len__], [__new__] and
    [__init__]. *)
Inductive Ty :=
| TyObject
| TyNoneType
| TyInt
| TyStr
| TyTuple
| TyType
| TyFunction
| TyNotImplementedType
| TyMiddlewareResult
| TyMiddleware
| TyMiddlewareFunction
| TyMiddlewareState
| TyContextState
| TyMiddlewareCollection
| TyMiddlewareChain
| TyOneOfAll
| TyAllOfAll
| TyUser (name : string) (base : Ty) (methods : list string).

#[global] Instance MiddlewareResult_eq_dec : EqDecision MiddlewareResult.
Proof. solve_decision. Defined.

#[global] Instance Ty_eq_dec : EqDecision Ty.
Proof. solve_decision. Defined.

(** Method resolution order: the class itself, then its bases up to
    [object]. *)
Fixpoint mro (t : Ty) : list Ty :=
  match t with
  | TyObject => [TyObject]
  | TyMiddlewareFunction => [TyMiddlewareFunction; TyMiddleware; TyObject]
  | TyMiddlewareState => [TyMiddlewareState; TyMiddleware; TyObject]
  | TyMiddlewareCollection => [TyMiddlewareCollection; TyMiddleware; TyObject]
  | TyMiddlewareChain =>
      [TyMiddlewareChain; TyMiddlewareCollection; TyMiddleware; TyObject]
  | TyOneOfAll => [TyOneOfAll; TyMiddlewareCollection; TyMiddleware; TyObject]
  | TyAllOfAll => [TyAllOfAll; TyMiddlewareCollection; TyMiddleware; TyObject]
  | TyUser _ base _ => t :: mro base
  | _ => [t; TyObject]
  end.

(** [issubclass(c, d)]. *)
Definition issubclass (c d : Ty) : bool := bool_decide (d ∈ mro c).

(** Classes are keys of the state store of a context, so they are
    countable: a class is its builtin root and the names derived from it. *)
Fixpoint ty_root (t : Ty) : nat :=
  match t with
  | TyObject => 0
  | TyNoneType => 1
  | TyInt => 2
  | TyStr => 3
  | TyTuple => 4
  | TyType => 5
  | TyFunction => 6
  | TyMiddlewareResult => 7
  | TyMiddleware => 8
  | TyMiddlewareFunction => 9
  | TyMiddlewareState => 10
  | TyContextState => 11
  | TyMiddlewareCollection => 12
  | TyMiddlewareChain => 13
  | TyOneOfAll => 14
  | TyAllOfAll => 15
  | TyNotImplementedType => 16
  | TyUser _ base _ => ty_root base
  end.

Fixpoint ty_path (t : Ty) : list (string * list string) :=
  match t with
  | TyUser name base methods => (name, methods) :: ty_path base
  | _ => []
  end.

Definition ty_of_root (n : nat) : Ty :=
  match n with
  | 0 => TyObject
  | 1 => TyNoneType
  | 2 => TyInt
  | 3 => TyStr
  | 4 => TyTuple
  | 5 => TyType
  | 6 => TyFunction
  | 7 => TyMiddlewareResult
  | 8 => TyMiddleware
  | 9 => TyMiddlewareFunction
  | 10 => TyMiddlewareState
  | 11 => TyContextState
  | 12 => TyMiddlewareCollection
  | 13 => TyMiddlewareChain
  | 14 => TyOneOfAll
  | 15 => TyAllOfAll
  | _ => TyNotImplementedType
  end.

Definition ty_encode (t : Ty) : nat * list (string * list string) :=
  (ty_root t, ty_path t).
Definition ty_decode (p : nat * list (string * list string)) : Ty :=
  foldr (fun c base => TyUser c.1 base c.2) (ty_of_root p.1) p.2.

Lemma ty_decode_encode (t : Ty) : ty_decode (ty_encode t) = t.
Proof.
  unfold ty_decode, ty_encode; simpl.
  induction t; simpl; try reflexivity.
  by rewrite IHt.
Qed.

#[global] Instance Ty_countable : Countable Ty :=
  inj_countable' ty_encode ty_decode ty_decode_encode.

(** The function that a user class gives its instances for the method
    [m]: the body [name.m] of the first class of the MRO that defines
    [m].  It is asked for [__eq__], [__bool__], [__len__] and [__new__],
    which the objects of the other classes have from [object], and for
    the [__init__] of the classes derived from [object] and
    [ContextState] outside the module. *)
Fixpoint user_method (t : Ty) (m : string) : option string :=
  match t with
  | TyUser name base methods =>
      if bool_decide (m ∈ methods) then Some (name +:+ "." +:+ m)
      else user_method base m
  | _ => None
  end.

(** A class is abstract while [run], declared with [abc.abstractmethod]
    at lines 79-80, is not defined below [Middleware] and
    [MiddlewareCollection] (which defines none). *)
Fixpoint is_abstract (t : Ty) : bool :=
  match t with
  | TyMiddleware | TyMiddlewareCollection => true
  | TyUser _ base methods =>
      if bool_decide ("run" ∈ methods) then false else is_abstract base
  | _ => false
  end.

(** The builtin or module class that a class derives from. *)
Fixpoint ty_base (t : Ty) : Ty :=
  match t with
  | TyUser _ base _ => ty_base base
  | _ => t
  end.

(** ** Values *)

Abbreviation addr := nat.
Abbreviation FnId := string.

(** Python values.  [VFunc is_async f] is the function object defined by
    [def f] ([is_async = false]) or [async def f] ([is_async = true]).
    [VLambda current next] is the closure that [MiddlewareChain.run]
    builds at lines 318-322, holding its two captured variables.  [VRef a]
    is a reference to the object stored at address [a].
    [VNotImplemented] is the singleton that a comparison method returns
    to decline. *)
#[local] Unset Elimination Schemes.
Inductive Value :=
| VNone
| VInt (z : Z)
| VStr (s : string)
| VTuple (vs : list Value)
| VEnum (r : MiddlewareResult)
| VType (t : Ty)
| VFunc (is_async : bool) (f : FnId)
| VLambda (current next : Value)
| VRef (a : addr)
| VNotImplemented.
#[local] Set Elimination Schemes.

Section ValueInd.
Variable P : Value -> Prop.
Hypothesis HNone : P VNone.
Hypothesis HInt : forall z, P (VInt z).
Hypothesis HStr : forall s, P (VStr s).
Hypothesis HTuple : forall vs, Forall P vs -> P (VTuple vs).
Hypothesis HEnum : forall r, P (VEnum r).
Hypothesis HType : forall t, P (VType t).
Hypothesis HFunc : forall b f, P (VFunc b f).
Hypothesis HLambda : forall c n, P c -> P n -> P (VLambda c n).
Hypothesis HRef : forall a, P (VRef a).
Hypothesis HNotImplemented : P VNotImplemented.

Fixpoint Value_ind' (v : Value) : P v :=
  match v with
  | VNone => HNone
  | VInt z => HInt z
  | VStr s => HStr s
  | VTuple vs =>
      HTuple vs
        ((fix all (l : list Value) : Forall P l :=
            match l with
            | [] => Forall_nil_2 P
            | x :: l' => Forall_cons_2 P x l' (Value_ind' x) (all l')
            end) vs)
  | VEnum r => HEnum r
  | VType t => HType t
  | VFunc b f => HFunc b f
  | VLambda c n => HLambda c n (Value_ind' c) (Value_ind' n)
  | VRef a => HRef a
  | VNotImplemented => HNotImplemented
  end.
End ValueInd.

(** The comparison [x == y] of the builtin classes: structural on data,
    identity on references.  (A closure is compared by what it captured;
    the module never compares closures.)  The comparison that a user
    class defines is [eq_member] below. *)
Fixpoint py_eq (x y : Value) : bool :=
  match x, y with
  | VNone, VNone => true
  | VInt a, VInt b => bool_decide (a = b)
  | VStr a, VStr b => bool_decide (a = b)
  | VTuple xs, VTuple ys =>
      (fix go (l1 l2 : list Value) : bool :=
         match l1, l2 with
         | [], [] => true
         | a :: l1', b :: l2' => py_eq a b && go l1' l2'
         | _, _ => false
         end) xs ys
  | VEnum a, VEnum b => bool_decide (a = b)
  | VType a, VType b => bool_decide (a = b)
  | VFunc b1 f1, VFunc b2 f2 => bool_decide (b1 = b2) && bool_decide (f1 = f2)
  | VLambda c1 n1, VLambda c2 n2 => py_eq c1 c2 && py_eq n1 n2
  | VRef a, VRef b => bool_decide (a = b)
  | VNotImplemented, VNotImplemented => true
  | _, _ => false
  end.

Lemma py_eq_spec (x y : Value) : py_eq x y = true <-> x = y.
Proof.
  revert y. induction x as [| | |vs IH| | | |c n IHc IHn| |] using Value_ind';
    intros y; destruct y; simpl;
    rewrite ?andb_true_iff, ?bool_decide_eq_true;
    try (split; [discriminate | discriminate]);
    try (split; [intros; destruct_and?; congruence | intros [=]; subst; tauto]).
  - revert vs0. induction IH as [|a l Ha _ IHl]; intros [|b l']; simpl.
    + split; reflexivity.
    + split; discriminate.
    + split; discriminate.
    + rewrite andb_true_iff, Ha. split.
      * intros [-> Hl]. apply IHl in Hl. congruence.
      * intros [=]; subst. split; [reflexivity | by apply IHl].
  - rewrite IHc, IHn. split; [intros [-> ->]; reflexivity | intros [=]; tauto].
Qed.

#[global] Instance Value_eq_dec : EqDecision Value.
Proof.
  intros x y. destruct (py_eq x y) eqn:E.
  - left. by apply py_eq_spec.
  - right. intros H. apply py_eq_spec in H. congruence.
Defined.

(** ** Heap, outcomes and the monad *)

(** An attribute holds a value, a list or a dict keyed by classes (the
    only dict of the module is [ctx.states], keyed by [type(state)]). *)
Inductive Attr :=
| AVal (v : Value)
| AList (l : list Value)
| ADict (d : gmap Ty Value).

(** An object: its class and its attribute dictionary.  [Context]
    ([hugo.core.context]) is imported by the module and used only through
    the attribute [states]; a context is any object of the heap. *)
Record Object := mkObject {
  ob_type : Ty;
  ob_attrs : gmap string Attr
}.

Abbreviation Heap := (list Object).

(** The exceptions that the module raises or lets through.
    [SystemError] marks what the model does not cover: a reference to no
    object, a constructor or a truth value that only user code
    decides. *)
Inductive Exn :=
| ValueError (msg : string)
| TypeError (msg : string)
| AttributeError (name : string)
| SystemError (msg : string).

(** What an awaited call produces: a value, an exception, or nothing
    within the fuel given to the interpreter. *)
Inductive Outcome (A : Type) :=
| Done (a : A)
| Raised (e : Exn)
| OutOfFuel.
Arguments Done {A} a.
Arguments Raised {A} e.
Arguments OutOfFuel {A}.

Definition M (A : Type) : Type := Heap -> Outcome A * Heap.

Definition ret {A} (a : A) : M A := fun h => (Done a, h).
Definition raise {A} (e : Exn) : M A := fun h => (Raised e, h).
Definition out_of_fuel {A} : M A := fun h => (OutOfFuel, h).
Definition bind {A B} (m : M A) (k : A -> M B) : M B :=
  fun h =>
    match m h with
    | (Done a, h') => k a h'
    | (Raised e, h') => (Raised e, h')
    | (OutOfFuel, h') => (OutOfFuel, h')
    end.

#[global] Instance M_ret : MRet M := @ret.
#[global] Instance M_bind : MBind M := fun A B k m => bind m k.

(** ** Primitive operations of the language *)

(** Object creation: the new object gets an address that no object had. *)
Definition alloc (o : Object) : M Value :=
  fun h => (Done (VRef (length h)), h ++ [o]).

(** [type(v)]. *)
Definition type_of (v : Value) : M Ty :=
  fun h =>
    match v with
    | VNone => (Done TyNoneType, h)
    | VInt _ => (Done TyInt, h)
    | VStr _ => (Done TyStr, h)
    | VTuple _ => (Done TyTuple, h)
    | VEnum _ => (Done TyMiddlewareResult, h)
    | VType _ => (Done TyType, h)
    | VFunc _ _ | VLambda _ _ => (Done TyFunction, h)
    | VNotImplemented => (Done TyNotImplementedType, h)
    | VRef a =>
        match h !! a with
        | Some o => (Done (ob_type o), h)
        | None => (Raised (SystemError "dangling reference"), h)
        end
    end.

(** [isinstance(v, cls)]. *)
Definition isinstance (v : Value) (cls : Ty) : M bool :=
  t ← type_of v; ret (issubclass t cls).

(** [v.name]. *)
Definition getattr (v : Value) (name : string) : M Attr :=
  fun h =>
    match v with
    | VRef a =>
        match h !! a with
        | Some o =>
            match ob_attrs o !! name with
            | Some x => (Done x, h)
            | None => (Raised (AttributeError name), h)
            end
        | None => (Raised (SystemError "dangling reference"), h)
        end
    | _ => (Raised (AttributeError name), h)
    end.

(** [v.name = x]. *)
Definition setattr (v : Value) (name : string) (x : Attr) : M unit :=
  fun h =>
    match v with
    | VRef a =>
        match h !! a with
        | Some o =>
            (Done tt,
             <[a := mkObject (ob_type o) (<[name := x]> (ob_attrs o))]> h)
        | None => (Raised (SystemError "dangling reference"), h)
        end
    | _ => (Raised (AttributeError name), h)
    end.

(** Reading an attribute where the code expects a plain value ([self.fn],
    [self.state], [self.key]) or a list ([self.collection]). *)
Definition get_value (v : Value) (name : string) : M Value :=
  x ← getattr v name;
  match x with
  | AVal w => ret w
  | _ => raise (TypeError "attribute is a container")
  end.

Definition get_list (v : Value) (name : string) : M (list Value) :=
  x ← getattr v name;
  match x with
  | AList l => ret l
  | _ => raise (TypeError "attribute is not a list")
  end.

(** Truth value of a value of a builtin class, and of an object whose
    class leaves the truth value to [object]. *)
Definition truthy (v : Value) : bool :=
  match v with
  | VNone => false
  | VInt z => negb (bool_decide (z = 0%Z))
  | VStr s => negb (bool_decide (s = ""))
  | VTuple vs => negb (bool_decide (vs = []))
  | _ => true
  end.

(** [asyncio.iscoroutinefunction(v)]: true of the functions defined with
    [async def], false of every other value (an object whose class has an
    [async def __call__] is not a function). *)
Definition iscoroutinefunction (v : Value) : bool :=
  match v with
  | VFunc true _ => true
  | _ => false
  end.

(** *** Calling conventions *)

(** The keyword dictionary of a call [f(..., k1=v1, ..., **kwargs)]:
    a name given twice is a [TypeError] at the call. *)
Fixpoint keywords (named : list (string * Value))
    (kwargs : gmap string Value) : M (gmap string Value) :=
  match named with
  | [] => ret kwargs
  | (k, v) :: rest =>
      kw ← keywords rest kwargs;
      match kw !! k with
      | Some _ =>
          raise (TypeError "got multiple values for keyword argument")
      | None => ret (<[k := v]> kw)
      end
  end.

(** Binding a call to the signature [(self, *args, ctx, next, **kwargs)]
    of [run] and [__call__]: [ctx] and [next] are required keyword
    arguments, the remaining keywords go to [kwargs]. *)
Definition bind_signature (kw : gmap string Value)
    : M (Value * Value * gmap string Value) :=
  match kw !! "self" with
  | Some _ => raise (TypeError "got multiple values for argument 'self'")
  | None =>
      match kw !! "ctx", kw !! "next" with
      | Some ctx, Some next =>
          ret (ctx, next, delete "ctx" (delete "next" kw))
      | _, _ => raise (TypeError "missing required keyword-only argument")
      end
  end.

(** Binding a call to the signature [( *args, ctx, **kwargs)] of the
    closure of [MiddlewareChain.run]. *)
Definition bind_lambda (kw : gmap string Value)
    : M (Value * gmap string Value) :=
  match kw !! "ctx" with
  | Some ctx => ret (ctx, delete "ctx" kw)
  | None => raise (TypeError "missing required keyword-only argument")
  end.

(** The awaited call [await f( *args, **kw)]. *)
Definition Callee : Type := list Value -> gmap string Value -> M Value.
Definition Caller : Type := Value -> Callee.

(** The method [__eq__] that the class of [v] has from a user class.
    The values of the builtin classes and the objects of the classes of
    the module have none: their class compares as [py_eq] does. *)
Definition eq_method (v : Value) : M (option FnId) :=
  match v with
  | VRef _ => t ← type_of v; ret (user_method t "__eq__")
  | _ => ret None
  end.

(** Truth value of [v] in [if v:].  An object is true unless a user
    class gives it [__bool__] or [__len__]; what such a method decides
    is outside the model. *)
Definition truth (v : Value) : M bool :=
  match v with
  | VRef _ =>
      t ← type_of v;
      match user_method t "__bool__", user_method t "__len__" with
      | None, None => ret true
      | _, _ => raise (SystemError "truth value outside the model")
      end
  | _ => ret (truthy v)
  end.

(** ** The module *)

(** [cls.__new__(cls)]: a new object of class [cls] without attributes. *)
Definition new (cls : Ty) : M Value := alloc (mkObject cls ∅).

(** [Middleware.__init__] (lines 76-77). *)
Definition Middleware_init (self : Value) : M unit :=
  setattr self "fn" (AVal VNone).

(** [MiddlewareFunction.__init__] (lines 149-154). *)
Definition MiddlewareFunction_init (self fn : Value) : M unit :=
  Middleware_init self;;
  if negb (iscoroutinefunction fn) then raise (ValueError "Not a coroutine")
  else setattr self "fn" (AVal fn).

(** The constructor call [MiddlewareFunction(fn)]. *)
Definition MiddlewareFunction_new (fn : Value) : M Value :=
  self ← new TyMiddlewareFunction;
  MiddlewareFunction_init self fn;;
  ret self.

(** [MiddlewareState.__init__] (lines 201-204). *)
Definition MiddlewareState_init (self state key : Value) : M unit :=
  Middleware_init self;;
  setattr self "state" (AVal state);;
  setattr self "key" (AVal key).

(** The constructor call [MiddlewareState(state, key=key)]. *)
Definition MiddlewareState_new (state key : Value) : M Value :=
  self ← new TyMiddlewareState;
  MiddlewareState_init self state key;;
  ret self.

(** [getattr(v, name, default)]. *)
Definition getattr_default (v : Value) (name : string) (default : Attr)
    : M Attr :=
  fun h =>
    match getattr v name h with
    | (Raised (AttributeError _), h') => (Done default, h')
    | r => r
    end.

(** [MiddlewareState._ensure_context] (lines 233-237). *)
Definition MiddlewareState__ensure_context (ctx : Value) : M unit :=
  states ← getattr_default ctx "states" (AVal VNone);
  match states with
  | AVal VNone => setattr ctx "states" (ADict ∅)
  | _ => ret tt
  end.

(** [MiddlewareState.get_state] (lines 221-225). *)
Definition MiddlewareState_get_state (ctx : Value) (state_type : Ty)
    : M Value :=
  MiddlewareState__ensure_context ctx;;
  states ← getattr ctx "states";
  match states with
  | ADict d => ret (default VNone (d !! state_type))
  | _ => raise (AttributeError "get")
  end.

(** [MiddlewareState.set_state] (lines 227-231). *)
Definition MiddlewareState_set_state (ctx state : Value) : M unit :=
  MiddlewareState__ensure_context ctx;;
  states ← getattr ctx "states";
  t ← type_of state;
  match states with
  | ADict d => setattr ctx "states" (ADict (<[t := state]> d))
  | _ => raise (TypeError "object does not support item assignment")
  end.

(** [MiddlewareCollection.__init__] (lines 255-257);
    [MiddlewareChain.__init__] only calls it. *)
Definition MiddlewareCollection_init (self : Value) : M unit :=
  Middleware_init self;;
  setattr self "collection" (AList []).

(** [MiddlewareCollection.add_middleware] (lines 259-283). *)
Definition MiddlewareCollection_add_middleware (self middleware : Value)
    : M Value :=
  is_mw ← isinstance middleware TyMiddleware;
  if negb is_mw then raise (ValueError "Not a middleware")
  else
    collection ← get_list self "collection";
    setattr self "collection" (AList (collection ++ [middleware]));;
    ret middleware.

(** [MiddlewareChain.add_middleware] (lines 305-311). *)
Definition MiddlewareChain_add_middleware (self middleware : Value)
    : M Value :=
  MiddlewareCollection_add_middleware self middleware;;
  collection ← get_list self "collection";
  (if bool_decide (length collection = 1)
   then fn ← getattr middleware "fn"; setattr self "fn" fn
   else ret tt);;
  ret middleware.

(** [collection.add_middleware(middleware)]: the method of the class of
    [collection]. *)
Definition add_middleware (collection middleware : Value) : M Value :=
  t ← type_of collection;
  if issubclass t TyMiddlewareChain
  then MiddlewareChain_add_middleware collection middleware
  else if issubclass t TyMiddlewareCollection
  then MiddlewareCollection_add_middleware collection middleware
  else raise (AttributeError "add_middleware").

(** [as_middleware] (lines 326-343). *)
Definition as_middleware (fn : Value) : M Value :=
  MiddlewareFunction_new fn.

(** The constructor call [collection_class()] (line 362), for the
    classes derived from [MiddlewareCollection].  A class without [run]
    is abstract and cannot be instantiated; a class with a constructor
    of its own is outside the model. *)
Definition MiddlewareCollection_new (collection_class : Ty) : M Value :=
  if issubclass collection_class TyMiddlewareCollection
  then
    if is_abstract collection_class
    then raise (TypeError "Can't instantiate abstract class")
    else
      match user_method collection_class "__new__",
            user_method collection_class "__init__" with
      | None, None =>
          self ← new collection_class;
          MiddlewareCollection_init self;;
          ret self
      | _, _ => raise (SystemError "constructor outside the model")
      end
  else raise (SystemError "constructor outside the model").

(** The loop of [collection_of] (lines 364-367). *)
Fixpoint collection_of_loop (collection : Value) (middleware : list Value)
    : M unit :=
  match middleware with
  | [] => ret tt
  | mw :: rest =>
      is_mw ← isinstance mw TyMiddleware;
      mw' ← (if negb is_mw then as_middleware mw else ret mw);
      add_middleware collection mw';;
      collection_of_loop collection rest
  end.

(** [collection_of] (lines 346-369). *)
Definition collection_of (collection_class : Ty) (middleware : list Value)
    : M Value :=
  collection ← MiddlewareCollection_new collection_class;
  collection_of_loop collection middleware;;
  ret collection.

(** [chain_of] (lines 372-385). *)
Definition chain_of (middleware : list Value) : M Value :=
  collection_of TyMiddlewareChain middleware.

(** The inner function [decorator] of [middleware] (lines 402-408), with
    its captured [outer_middleware] as first argument. *)
Definition decorator (outer_middleware inner_middleware : Value) : M Value :=
  is_chain ← isinstance inner_middleware TyMiddlewareChain;
  if (is_chain : bool)
  then add_middleware inner_middleware outer_middleware;;
       ret inner_middleware
  else chain_of [inner_middleware; outer_middleware].

(** [middleware] (lines 388-410): returns the decorator. *)
Definition middleware (outer_middleware : Value) : M (Value -> M Value) :=
  is_mw ← isinstance outer_middleware TyMiddleware;
  outer_middleware' ←
    (if negb is_mw then as_middleware outer_middleware
     else ret outer_middleware);
  ret (decorator outer_middleware').

(** *** The [run] methods

    Inside a method, [call f args kw] is [await f( *args, **kw)] and
    [run mw args kw] is [await mw.run( *args, **kw)]; both are resolved by
    the interpreter below. *)
Section Methods.
Variable call : Caller.
Variable run : Caller.

(** [value == member] for a member of [MiddlewareResult], as the
    condition of an [if] (line 48).  Python asks the class of [value]
    first: a [__eq__] of a user class is called with the member as the
    other operand, and the truth of its answer decides.  Without such a
    method, or when it answers [NotImplemented], the comparison falls to
    the enum member, which compares by identity. *)
Definition eq_member (value : Value) (member : MiddlewareResult) : M bool :=
  method ← eq_method value;
  match method with
  | Some f =>
      answer ← call (VFunc false f) [value; VEnum member] ∅;
      if bool_decide (answer = VNotImplemented)
      then ret (py_eq value (VEnum member))
      else truth answer
  | None => ret (py_eq value (VEnum member))
  end.

(** [is_successful_result] (lines 44-50); the static method
    [Middleware.is_successful_result] (lines 116-121) only calls it. *)
Definition is_successful_result (value : Value) : M bool :=
  ignored ← eq_member value IGNORE;
  if (ignored : bool) then ret false else ret true.

(** The call [cls( *args, **kw)] of a class that derives from [object] or
    [ContextState] outside the module ([type.__call__]): [__new__] makes
    the object, a new one unless a user class defines [__new__]; when the
    object is an instance of the class, the [__init__] of its class runs
    on it and must return [None].  [object.__new__] refuses arguments
    when the class defines neither method. *)
Definition instantiate (cls : Ty) (args : list Value)
    (kw : gmap string Value) : M Value :=
  obj ← (match user_method cls "__new__" with
         | Some f => call (VFunc false f) (VType cls :: args) kw
         | None =>
             match user_method cls "__init__" with
             | None =>
                 if bool_decide (args = [] /\ kw = ∅) then new cls
                 else raise (TypeError "takes no arguments")
             | Some _ => new cls
             end
         end);
  t ← type_of obj;
  if issubclass t cls
  then
    match user_method t "__init__" with
    | Some f =>
        result ← call (VFunc false f) (obj :: args) kw;
        if bool_decide (result = VNone) then ret obj
        else raise (TypeError "__init__() should return None")
    | None => ret obj
    end
  else ret obj.

(** [MiddlewareFunction.run] (lines 156-160). *)
Definition MiddlewareFunction_run (self : Value) (args : list Value)
    (ctx next : Value) (kwargs : gmap string Value) : M Value :=
  fn ← get_value self "fn";
  kw ← keywords [("ctx", ctx); ("next", next)] kwargs;
  call fn args kw.

(** [MiddlewareState.run] (lines 206-219).  [state()] is the call of
    the class; [kwargs[self.key] = state] with a key that is not a
    string makes the call of [next] a [TypeError]. *)
Definition MiddlewareState_run (self : Value) (args : list Value)
    (ctx next : Value) (kwargs : gmap string Value) : M Value :=
  state ← get_value self "state";
  state ← (match state with
           | VType t => if issubclass t TyContextState then call state [] ∅
                        else ret state
           | _ => ret state
           end);
  key ← get_value self "key";
  key_given ← truth key;
  let kwargs' :=
    if (key_given : bool)
    then match key with
         | VStr k => Some (<[k := state]> kwargs)
         | _ => None
         end
    else Some kwargs in
  MiddlewareState_set_state ctx state;;
  match kwargs' with
  | Some kwargs =>
      kw ← keywords [("ctx", ctx)] kwargs;
      call next args kw
  | None => raise (TypeError "keywords must be strings")
  end.

(** [MiddlewareChain.run] (lines 313-323): the loop rebinds [next] to a
    closure over the current member and the previous [next]. *)
Definition MiddlewareChain_run (self : Value) (args : list Value)
    (ctx next : Value) (kwargs : gmap string Value) : M Value :=
  collection ← get_list self "collection";
  let next :=
    foldl (fun next current => VLambda current next) next collection in
  kw ← keywords [("ctx", ctx)] kwargs;
  call next args kw.

(** The loop of [OneOfAll.run] (lines 423-428).  [for mw in
    self.collection] iterates the list object itself: round [i] takes
    the item that the list holds at index [i] at that moment, and the
    loop ends when the list has none there, so what a member adds to or
    removes from the list is seen.  The attribute [collection] stands
    for that list object, which the module creates in [__init__] and
    afterwards only changes in place.  [budget] bounds the number of
    rounds. *)
Fixpoint OneOfAll_loop (budget : nat) (self : Value) (i : nat)
    (args : list Value) (ctx next : Value) (kwargs : gmap string Value)
    : M Value :=
  collection ← get_list self "collection";
  match collection !! i with
  | None => ret (VEnum IGNORE)
  | Some mw =>
      match budget with
      | 0 => out_of_fuel
      | S budget' =>
          kw ← keywords [("ctx", ctx); ("next", next)] kwargs;
          result ← run mw args kw;
          successful ← is_successful_result result;
          if (successful : bool) then ret result
          else OneOfAll_loop budget' self (S i) args ctx next kwargs
      end
  end.

(** [OneOfAll.run] (lines 420-428). *)
Definition OneOfAll_run (budget : nat) (self : Value) (args : list Value)
    (ctx next : Value) (kwargs : gmap string Value) : M Value :=
  OneOfAll_loop budget self 0 args ctx next kwargs.

(** The list comprehension of [AllOfAll.run] (lines 444-447), over the
    list object as the loop of [OneOfAll.run]. *)
Fixpoint AllOfAll_results (budget : nat) (self : Value) (i : nat)
    (args : list Value) (ctx next : Value) (kwargs : gmap string Value)
    : M (list Value) :=
  collection ← get_list self "collection";
  match collection !! i with
  | None => ret []
  | Some mw =>
      match budget with
      | 0 => out_of_fuel
      | S budget' =>
          kw ← keywords [("ctx", ctx); ("next", next)] kwargs;
          result ← run mw args kw;
          results ← AllOfAll_results budget' self (S i) args ctx next kwargs;
          ret (result :: results)
      end
  end.

(** [AllOfAll.run] (lines 440-448). *)
Definition AllOfAll_run (budget : nat) (self : Value) (args : list Value)
    (ctx next : Value) (kwargs : gmap string Value) : M Value :=
  results ← AllOfAll_results budget self 0 args ctx next kwargs;
  ret (VTuple results).
End Methods.

(** ** The interpreter *)

(** Which [run] a class has. *)
Inductive RunMethod :=
| RunAbstract
| RunFunction
| RunState
| RunChain
| RunOneOfAll
| RunAllOfAll
| RunUser (name : string).

Section Interpreter.
(** Bodies of the functions defined outside the module (the special
    methods of user classes among them, under the names that
    [user_method] gives), and the [run] methods of the classes defined
    outside the module; a body calls back through the [Caller] it is
    given. *)
Variable code : FnId -> Caller -> Callee.
Variable user_run : string -> option (Caller -> Value -> Callee).

Fixpoint resolve_run (t : Ty) : option RunMethod :=
  match t with
  | TyMiddleware | TyMiddlewareCollection => Some RunAbstract
  | TyMiddlewareFunction => Some RunFunction
  | TyMiddlewareState => Some RunState
  | TyMiddlewareChain => Some RunChain
  | TyOneOfAll => Some RunOneOfAll
  | TyAllOfAll => Some RunAllOfAll
  | TyUser name base methods =>
      if bool_decide ("run" ∈ methods)
      then match user_run name with
           | Some _ => Some (RunUser name)
           | None => None
           end
      else resolve_run base
  | _ => None
  end.

(** [call fuel f args kw] is the call [f( *args, **kw)], awaited when it
    returns a coroutine, and [run fuel self args kw] is
    [await self.run( *args, **kw)].  Calling an object is
    [Middleware.__call__] (lines 123-127); calling a class is
    [instantiate] for the classes it covers (the constructors of the
    classes of the module are the functions above). *)
Fixpoint call (fuel : nat) (f : Value) (args : list Value)
    (kw : gmap string Value) {struct fuel} : M Value :=
  match fuel with
  | 0 => out_of_fuel
  | S fuel' =>
      match f with
      | VFunc _ id => code id (call fuel') args kw
      | VLambda current next =>
          '(ctx, kwargs) ← bind_lambda kw;
          kw' ← keywords [("ctx", ctx); ("next", next)] kwargs;
          run fuel' current args kw'
      | VRef _ =>
          is_mw ← isinstance f TyMiddleware;
          if negb is_mw then raise (TypeError "object is not callable")
          else
            '(ctx, next, kwargs) ← bind_signature kw;
            kw' ← keywords [("ctx", ctx); ("next", next)] kwargs;
            run fuel' f args kw'
      | VType t =>
          if bool_decide (ty_base t = TyObject \/ ty_base t = TyContextState)
          then instantiate (call fuel') t args kw
          else raise (SystemError "constructor outside the model")
      | _ => raise (TypeError "object is not callable")
      end
  end
with run (fuel : nat) (self : Value) (args : list Value)
    (kw : gmap string Value) {struct fuel} : M Value :=
  match fuel with
  | 0 => out_of_fuel
  | S fuel' =>
      t ← type_of self;
      match resolve_run t with
      | None => raise (AttributeError "run")
      | Some (RunUser name) =>
          match user_run name with
          | Some body => body (call fuel') self args kw
          | None => raise (AttributeError "run")
          end
      | Some m =>
          '(ctx, next, kwargs) ← bind_signature kw;
          match m with
          | RunFunction =>
              MiddlewareFunction_run (call fuel') self args ctx next kwargs
          | RunState =>
              MiddlewareState_run (call fuel') self args ctx next kwargs
          | RunChain =>
              MiddlewareChain_run (call fuel') self args ctx next kwargs
          | RunOneOfAll =>
              OneOfAll_run (call fuel') (run fuel') fuel' self args ctx next
                kwargs
          | RunAllOfAll =>
              AllOfAll_run (run fuel') fuel' self args ctx next kwargs
          | _ => ret VNone
          end
      end
  end.
End Interpreter.

(** * Vocabulary of the statements *)

(** Reserved names of the signature of [run]. *)
Definition free_kwargs (kwargs : gmap string Value) : Prop :=
  kwargs !! "self" = None /\ kwargs !! "ctx" = None /\ kwargs !! "next" = None.

#[global] Instance free_kwargs_dec kwargs : Decision (free_kwargs kwargs).
Proof. unfold free_kwargs. apply _. Defined.

(** The keyword dictionary of [f( *args, ctx=ctx, next=next, **kwargs)]. *)
Definition run_kw (ctx next : Value) (kwargs : gmap string Value)
    : gmap string Value :=
  <["ctx" := ctx]> (<["next" := next]> kwargs).





(** The dict that [ctx.states] is once [_ensure_context] has run: the
    one the context holds, or a new empty one when the attribute is
    missing or [None]. *)
Definition states_of (o : Object) : option (gmap Ty Value) :=
  match ob_attrs o !! "states" with
  | None | Some (AVal VNone) => Some ∅
  | Some (ADict d) => Some d
  | _ => None
  end.

(** The heap in which the object at [c] has [state] stored under [ty] in
    its [states]. *)
Definition store_state (c : addr) (oc : Object) (d : gmap Ty Value)
    (ty : Ty) (state : Value) (h : Heap) : Heap :=
  <[c := mkObject (ob_type oc)
           (<["states" := ADict (<[ty := state]> d)]> (ob_attrs oc))]> h.

(** The class that [MiddlewareState.run] instantiates: [state] when it
    is a class derived from [ContextState]. *)
Definition per_run_class (state : Value) : option Ty :=
  match state with
  | VType t => if issubclass t TyContextState then Some t else None
  | _ => None
  end.

(** The state that a run resolves from the configured [s] in heap [h],
    and the heap this leaves: a class derived from [ContextState] is
    called without arguments and what the call returns is the state; any
    other value is the state itself. *)
Definition resolves (call : Caller) (s : Value) (h : Heap) (state : Value)
    (h1 : Heap) : Prop :=
  match per_run_class s with
  | Some _ => call s [] ∅ h = (Done state, h1)
  | None => state = s /\ h1 = h
  end.

(** The class keeps the constructor of [object]: no class of its MRO
    defines [__new__] or [__init__]. *)
Definition default_constructor (t : Ty) : Prop :=
  user_method t "__new__" = None /\ user_method t "__init__" = None.

(** The adapter object that [MiddlewareFunction(fn)] leaves in the heap. *)
Definition adapter (fn : Value) : Object :=
  mkObject TyMiddlewareFunction (<["fn" := AVal fn]> ∅).

(** The attributes of a chain after [add_middleware(mw)], [fn] being the
    [fn] attribute of [mw]: the first member gives the chain its [fn]. *)
Definition chain_added (o : Object) (l : list Value) (mw : Value)
    (fn : Attr) : Object :=
  let attrs := <["collection" := AList (l ++ [mw])]> (ob_attrs o) in
  mkObject (ob_type o)
    (if bool_decide (l = []) then <["fn" := fn]> attrs else attrs).

(** [h'] is [h] with [mw] appended to the sequence [l] of the
    collection at [a], no object created and no other object changed. *)
Definition appended (a : addr) (l : list Value) (mw : Value) (h h' : Heap)
    : Prop :=
  get_list (VRef a) "collection" h' = (Done (l ++ [mw]), h') /\
  length h' = length h /\
  forall b, b <> a -> h' !! b = h !! b.

(** The chain object that [MiddlewareChain()] leaves in the heap. *)
Definition empty_collection (cls : Ty) : Object :=
  mkObject cls (<["collection" := AList []]> (<["fn" := AVal VNone]> ∅)).

(** [v] is a middleware in heap [h]: [isinstance(v, Middleware)]. *)
Definition is_unit (h : Heap) (v : Value) : Prop :=
  isinstance v TyMiddleware h = (Done true, h).

(** What [collection_of] accepts as an item in heap [h]: a middleware
    (whose [__init__] has set [fn]) or a coroutine function. *)
Definition coercible (h : Heap) (item : Value) : Prop :=
  exists t,
    type_of item h = (Done t, h) /\
    (issubclass t TyMiddleware = true ->
     exists fn, getattr item "fn" h = (Done fn, h)) /\
    (issubclass t TyMiddleware = false -> iscoroutinefunction item = true).

(** What [collection_of] stores for the items of heap [h], in order:
    an item that is a middleware is stored itself; a coroutine function
    is stored as an adapter of it that exists in [h'] at an address
    that is at least [lo], and the adapters of the items after it are
    above that address.  ([lo] starts above the addresses of [h] and of
    the collection, so the adapters are new and pairwise distinct.) *)
Fixpoint coerced (h h' : Heap) (lo : nat) (items members : list Value)
    : Prop :=
  match items, members with
  | [], [] => True
  | item :: items', member :: members' =>
      (is_unit h item /\ member = item /\
       coerced h h' lo items' members') \/
      (iscoroutinefunction item = true /\
       exists b, member = VRef b /\ lo <= b /\
                 h' !! b = Some (adapter item) /\
                 coerced h h' (S b) items' members')
  | _, _ => False
  end.

(** * Test fixtures *)

(** [ctx.log.append(entry)]. *)
Definition log_append (ctx entry : Value) : M unit :=
  log ← getattr ctx "log";
  match log with
  | AList l => setattr ctx "log" (AList (l ++ [entry]))
  | _ => raise (AttributeError "append")
  end.

(** A probe middleware function:
    [async def probe( *args, ctx, next, **kwargs)] that appends
    [name-before] to [ctx.log], awaits [next( *args, ctx=ctx, **kwargs)],
    appends [name-after] and returns what [next] returned. *)
Definition probe (name : string) : Caller -> Callee :=
  fun call args kw =>
    match kw !! "ctx", kw !! "next" with
    | Some ctx, Some next =>
        log_append ctx (VStr (name +:+ "-before"));;
        result ← call next args (delete "next" kw);
        log_append ctx (VStr (name +:+ "-after"));;
        ret result
    | _, _ => raise (TypeError "missing required keyword-only argument")
    end.

(** A function that appends [name] to [ctx.log] and returns [result]
    without calling [next]. *)
Definition answer (name : string) (result : Value) : Caller -> Callee :=
  fun call args kw =>
    match kw !! "ctx" with
    | Some ctx => log_append ctx (VStr name);; ret result
    | None => raise (TypeError "missing required keyword-only argument")
    end.

(** The functions of the tests: probes [A] and [B], the terminal [T]
    returning [v], and three members with fixed answers. *)
Definition fixture_code (v : Value) (f : FnId) : Caller -> Callee :=
  if bool_decide (f = "A") then probe "A"
  else if bool_decide (f = "B") then probe "B"
  else if bool_decide (f = "T") then answer "T" v
  else if bool_decide (f = "M1") then answer "M1" (VEnum IGNORE)
  else if bool_decide (f = "M2") then answer "M2" (VStr "X")
  else if bool_decide (f = "M3") then answer "M3" (VStr "Y")
  else fun _ _ _ => raise (TypeError "undefined function").

Definition no_user_run : string -> option (Caller -> Value -> Callee) :=
  fun _ => None.

(** The classes of the tests, all defined outside the module:
    [AlwaysEqual] with an [__eq__] that answers 1 to everything;
    [Session(ContextState)] with an [__init__] that sets [self.user];
    [Shared(ContextState)] with a [__new__] that returns the instance
    its module keeps at address 2; [Plain(ContextState)] with an empty
    body; [Bare(Middleware)] with a [run] and an [__init__] that does
    not call [Middleware.__init__]. *)
Definition AlwaysEqual : Ty := TyUser "AlwaysEqual" TyObject ["__eq__"].
Definition Session : Ty := TyUser "Session" TyContextState ["__init__"].
Definition Bare : Ty := TyUser "Bare" TyMiddleware ["run"; "__init__"].

(** A function that appends [name] to [ctx.log] and returns a new
    instance of [AlwaysEqual]. *)
Definition answer_object (name : string) : Caller -> Callee :=
  fun call args kw =>
    match kw !! "ctx" with
    | Some ctx => log_append ctx (VStr name);; new AlwaysEqual
    | None => raise (TypeError "missing required keyword-only argument")
    end.

(** A member that appends [name] to [ctx.log], adds an adapter of [M2]
    to the group at address 1 and returns [IGNORE]. *)
Definition grow (name : string) : Caller -> Callee :=
  fun call args kw =>
    match kw !! "ctx" with
    | Some ctx =>
        log_append ctx (VStr name);;
        member ← as_middleware (VFunc true "M2");
        add_middleware (VRef 1) member;;
        ret (VEnum IGNORE)
    | None => raise (TypeError "missing required keyword-only argument")
    end.

(** The functions of the tests with classes: the methods of the classes
    above, the members [E] (returning an [AlwaysEqual]) and [G]
    (growing its group), and the functions of [fixture_code]. *)
Definition class_code (v : Value) (f : FnId) : Caller -> Callee :=
  if bool_decide (f = "AlwaysEqual.__eq__") then fun _ _ _ => ret (VInt 1)
  else if bool_decide (f = "Session.__init__") then
    fun _ args _ =>
      match args with
      | [self] => setattr self "user" (AVal (VStr "guest"));; ret VNone
      | _ => raise (TypeError "__init__() takes 1 positional argument")
      end
  else if bool_decide (f = "Shared.__new__") then fun _ _ _ => ret (VRef 2)
  else if bool_decide (f = "E") then answer_object "E"
  else if bool_decide (f = "G") then grow "G"
  else fixture_code v f.

(** Modelled from the spec: [Context] comes from [hugo.core.context],
    which is not among the sources; the specification makes it a mutable
    record that can hold the state store [states], created on first use.
    Here it is an object of the heap with its attribute dictionary; the
    one of the tests has an empty [log] and no [states] yet. *)
Definition new_context : M Value :=
  alloc (mkObject TyObject {["log" := AList []]}).

(** The test of the sequential chain: [add(A)], [add(B)], run with the
    terminal [T]; returns the result and the log. *)
Definition chain_test (fuel : nat) (v : Value) (args : list Value)
    : M (Value * list Value) :=
  ctx ← new_context;
  chain ← MiddlewareCollection_new TyMiddlewareChain;
  a ← as_middleware (VFunc true "A");
  add_middleware chain a;;
  b ← as_middleware (VFunc true "B");
  add_middleware chain b;;
  result ← run (fixture_code v) no_user_run fuel chain args
             (run_kw ctx (VFunc true "T") ∅);
  log ← get_list ctx "log";
  ret (result, log).

(** C6, the test of the specification: an empty chain run with a
    terminal returning ["T"] and no extra arguments returns ["T"]. *)
Definition empty_chain_test (fuel : nat) : M Value :=
  ctx ← new_context;
  chain ← MiddlewareCollection_new TyMiddlewareChain;
  run (fixture_code (VStr "T")) no_user_run fuel chain []
    (run_kw ctx (VFunc true "T") ∅).

(** The tests of the groups: a context and a group of class [cls] built
    by [collection_of] from the functions named [fns]. *)
Definition group_fixture (cls : Ty) (fns : list FnId) : Heap :=
  ((new_context;; collection_of cls (VFunc true <$> fns)) []).2.

(** The tests of the state injector: a context at address 0 and an
    injector built by [MiddlewareState(state, key=key)] at address 1. *)
Definition injector_fixture (state key : Value) : Heap :=
  ((new_context;; MiddlewareState_new state key) []).2.

(** The test of [add_middleware]: a context, an empty chain and an
    adapter of the probe [A], at addresses 0, 1 and 2. *)
Definition add_fixture : Heap :=
  ((new_context;; MiddlewareCollection_new TyMiddlewareChain;;
    as_middleware (VFunc true "A")) []).2.

(** The test of the decorator: an adapter of the probe [B] at address 0. *)
Definition decorator_fixture : Heap := [adapter (VFunc true "B")].

(** The test of a middleware without [fn]: a context, an empty chain and
    an instance of [Bare], at addresses 0, 1 and 2. *)
Definition bare_fixture : Heap :=
  ((new_context;; MiddlewareCollection_new TyMiddlewareChain;; new Bare) []).2.


(** * Verification *)

(** ** The monad and the calling conventions *)

Lemma mbind_done {A B} (m : M A) (k : A -> M B) h a h' :
  m h = (Done a, h') -> (m ≫= k) h = k a h'.
Proof. unfold mbind, M_bind, bind. by intros ->. Qed.

Lemma mbind_raised {A B} (m : M A) (k : A -> M B) h e h' :
  m h = (Raised e, h') -> (m ≫= k) h = (Raised e, h').
Proof. unfold mbind, M_bind, bind. by intros ->. Qed.

Lemma mbind_assoc {A B C} (m : M A) (f : A -> M B) (g : B -> M C) h :
  ((m ≫= f) ≫= g) h = (m ≫= fun x => f x ≫= g) h.
Proof.
  unfold mbind, M_bind, bind. by destruct (m h) as [[a| |] h'].
Qed.

Lemma mbind_ret {A B} (a : A) (k : A -> M B) h : (ret a ≫= k) h = k a h.
Proof. reflexivity. Qed.

Lemma keywords_ctx kwargs ctx h :
  kwargs !! "ctx" = None ->
  keywords [("ctx", ctx)] kwargs h = (Done (<["ctx" := ctx]> kwargs), h).
Proof.
  intros H. simpl. unfold mbind, M_bind, bind, ret. simpl. by rewrite H.
Qed.

Lemma keywords_ctx_next kwargs ctx next h :
  kwargs !! "ctx" = None -> kwargs !! "next" = None ->
  keywords [("ctx", ctx); ("next", next)] kwargs h =
    (Done (run_kw ctx next kwargs), h).
Proof.
  intros Hc Hn. simpl. unfold mbind, M_bind, bind, ret. simpl.
  rewrite Hn. simpl. rewrite lookup_insert_ne by done. by rewrite Hc.
Qed.

Lemma bind_signature_run_kw kwargs ctx next h :
  free_kwargs kwargs ->
  bind_signature (run_kw ctx next kwargs) h = (Done (ctx, next, kwargs), h).
Proof.
  intros (Hs & Hc & Hn). unfold bind_signature, run_kw.
  rewrite !lookup_insert_ne, Hs by done.
  rewrite lookup_insert_eq, lookup_insert_ne, lookup_insert_eq by done.
  unfold ret. repeat f_equal. apply map_eq. intros k.
  destruct (decide (k = "ctx")) as [->|]; [by rewrite lookup_delete_eq|].
  rewrite lookup_delete_ne by done.
  destruct (decide (k = "next")) as [->|]; [by rewrite lookup_delete_eq|].
  rewrite lookup_delete_ne by done. by rewrite !lookup_insert_ne.
Qed.

Lemma bind_lambda_ctx kwargs ctx h :
  kwargs !! "ctx" = None ->
  bind_lambda (<["ctx" := ctx]> kwargs) h = (Done (ctx, kwargs), h).
Proof.
  intros Hc. unfold bind_lambda. rewrite lookup_insert_eq.
  unfold ret. by rewrite delete_insert_eq, delete_id.
Qed.

(** ** Reading the heap *)

Lemma type_of_ref h a o :
  h !! a = Some o -> type_of (VRef a) h = (Done (ob_type o), h).
Proof. intros H. simpl. by rewrite H. Qed.

Lemma getattr_ref h a o name x :
  h !! a = Some o -> ob_attrs o !! name = Some x ->
  getattr (VRef a) name h = (Done x, h).
Proof. intros H Hx. simpl. by rewrite H, Hx. Qed.

Lemma get_list_ref h a o l :
  h !! a = Some o -> ob_attrs o !! "collection" = Some (AList l) ->
  get_list (VRef a) "collection" h = (Done l, h).
Proof.
  intros H Hx. unfold get_list.
  by rewrite (mbind_done _ _ _ _ _ (getattr_ref _ _ _ _ _ H Hx)).
Qed.

Lemma get_value_ref h a o name v :
  h !! a = Some o -> ob_attrs o !! name = Some (AVal v) ->
  get_value (VRef a) name h = (Done v, h).
Proof.
  intros H Hx. unfold get_value.
  by rewrite (mbind_done _ _ _ _ _ (getattr_ref _ _ _ _ _ H Hx)).
Qed.

Lemma setattr_ref h a o name x :
  h !! a = Some o ->
  setattr (VRef a) name x h =
    (Done tt, <[a := mkObject (ob_type o) (<[name := x]> (ob_attrs o))]> h).
Proof. intros H. simpl. by rewrite H. Qed.

Lemma type_of_cases v (h : Heap) :
  (exists t, type_of v h = (Done t, h)) \/
  type_of v h = (Raised (SystemError "dangling reference"), h).
Proof.
  destruct v; unfold type_of; try (by left; eexists).
  destruct (h !! a); [by left; eexists | by right].
Qed.

Lemma getattr_cases v name (h : Heap) :
  (exists x, getattr v name h = (Done x, h)) \/
  (exists e, getattr v name h = (Raised e, h)).
Proof.
  destruct v; unfold getattr; try (by right; eexists).
  destruct (h !! a) as [o|]; [|by right; eexists].
  destruct (ob_attrs o !! name); [by left; eexists | by right; eexists].
Qed.

Lemma is_unit_type v (h : Heap) :
  is_unit h v <->
  exists t, type_of v h = (Done t, h) /\ issubclass t TyMiddleware = true.
Proof.
  unfold is_unit, isinstance. split.
  - destruct (type_of_cases v h) as [[t Ht] | Ht].
    + rewrite (mbind_done _ _ _ _ _ Ht). intros [= Hs]. by exists t.
    + by rewrite (mbind_raised _ _ _ _ _ Ht).
  - intros (t & Ht & Hs). rewrite (mbind_done _ _ _ _ _ Ht).
    unfold ret. by rewrite Hs.
Qed.

(** ** Dispatch of [run] *)

Section Dispatch.
Variable code : FnId -> Caller -> Callee.
Variable user_run : string -> option (Caller -> Value -> Callee).

Lemma run_resolved fuel a o m args ctx next kwargs h :
  h !! a = Some o ->
  resolve_run user_run (ob_type o) = Some m ->
  (forall name, m <> RunUser name) ->
  free_kwargs kwargs ->
  run code user_run (S fuel) (VRef a) args (run_kw ctx next kwargs) h =
    match m with
    | RunFunction =>
        MiddlewareFunction_run (call code user_run fuel)
          (VRef a) args ctx next kwargs h
    | RunState =>
        MiddlewareState_run (call code user_run fuel)
          (VRef a) args ctx next kwargs h
    | RunChain =>
        MiddlewareChain_run (call code user_run fuel)
          (VRef a) args ctx next kwargs h
    | RunOneOfAll =>
        OneOfAll_run (call code user_run fuel) (run code user_run fuel) fuel
          (VRef a) args ctx next kwargs h
    | RunAllOfAll =>
        AllOfAll_run (run code user_run fuel) fuel
          (VRef a) args ctx next kwargs h
    | _ => (Done VNone, h)
    end.
Proof.
  intros Ha Hm Hu Hk. cbn [run].
  rewrite (mbind_done _ _ _ _ _ (type_of_ref _ _ _ Ha)), Hm.
  destruct m; try (by rewrite (mbind_done _ _ _ _ _
                        (bind_signature_run_kw _ _ _ _ Hk))).
  by destruct (Hu name).
Qed.

(** Calling the closure built by [MiddlewareChain.run] runs the member
    it captured with the [next] it captured. *)
Lemma call_lambda fuel current next args ctx kwargs h :
  kwargs !! "ctx" = None -> kwargs !! "next" = None ->
  call code user_run (S fuel) (VLambda current next) args
    (<["ctx" := ctx]> kwargs) h =
  run code user_run fuel current args (run_kw ctx next kwargs) h.
Proof.
  intros Hc Hn. cbn [call].
  rewrite (mbind_done _ _ _ _ _ (bind_lambda_ctx _ _ _ Hc)).
  by rewrite (mbind_done _ _ _ _ _ (keywords_ctx_next _ _ _ _ Hc Hn)).
Qed.

(** [MiddlewareChain.run] calls the fold of the stored sequence. *)
Lemma run_chain_fold fuel a o collection args ctx next kwargs h :
  h !! a = Some o ->
  resolve_run user_run (ob_type o) = Some RunChain ->
  ob_attrs o !! "collection" = Some (AList collection) ->
  free_kwargs kwargs ->
  run code user_run (S fuel) (VRef a) args (run_kw ctx next kwargs) h =
    call code user_run fuel
      (foldl (fun next current => VLambda current next) next collection)
      args (<["ctx" := ctx]> kwargs) h.
Proof.
  intros Ha Hm Hl Hk.
  rewrite (run_resolved _ _ _ _ _ _ _ _ _ Ha Hm) by done.
  unfold MiddlewareChain_run.
  rewrite (mbind_done _ _ _ _ _ (get_list_ref _ _ _ _ Ha Hl)).
  destruct Hk as (_ & Hc & _).
  by rewrite (mbind_done _ _ _ _ _ (keywords_ctx _ _ _ Hc)).
Qed.
End Dispatch.

(** ** Results *)




Lemma truth_data v (h : Heap) :
  (forall a, v <> VRef a) -> truth v h = (Done (truthy v), h).
Proof. intros Hv. destruct v; try done. by destruct (Hv a). Qed.

Section Comparison.
Variable call : Caller.





End Comparison.



Section Chain.
Variable code : FnId -> Caller -> Callee.
Variable user_run : string -> option (Caller -> Value -> Callee).

(** C6: running a chain whose [collection] is empty is the call
    [next( *args, ctx=ctx, **kwargs)] of the terminal. *)
Theorem MiddlewareChain_run_empty fuel a o args ctx next kwargs h :
  h !! a = Some o ->
  resolve_run user_run (ob_type o) = Some RunChain ->
  ob_attrs o !! "collection" = Some (AList []) ->
  free_kwargs kwargs ->
  run code user_run (S fuel) (VRef a) args (run_kw ctx next kwargs) h =
    call code user_run fuel next args (<["ctx" := ctx]> kwargs) h.
Proof.
  intros Ha Hm Hl Hk.
  by rewrite (run_chain_fold _ _ _ _ _ _ _ _ _ _ _ Ha Hm Hl Hk).
Qed.
End Chain.

Lemma MiddlewareChain_run_empty_witness :
  let code := fixture_code (VStr "T") in
  let h := (empty_chain_test 0 []).2 in
  run code no_user_run 2 (VRef 1) [] (run_kw (VRef 0) (VFunc true "T") ∅) h =
    call code no_user_run 1 (VFunc true "T") [] (<["ctx" := VRef 0]> ∅) h /\
  (empty_chain_test 2 []).1 = Done (VStr "T").
Proof.
  split; [|reflexivity].
  eapply (MiddlewareChain_run_empty (fixture_code (VStr "T")) no_user_run 1 1).
  - reflexivity.
  - reflexivity.
  - reflexivity.
  - by vm_compute.
Defined.

(** C1: a chain whose stored sequence is [[A; B]] enters [B] first, with
    a continuation that enters [A] with the terminal [next] as its
    continuation (the fold of the stored sequence in storage order,
    starting from [next]).  With the probes [A] and [B] added in that
    order and a terminal that logs [T] and returns [v], the log reads
    [B-before, A-before, T, A-after, B-after] and the chain returns [v]. *)
Theorem MiddlewareChain_run_order :
  (forall code user_run fuel a o A B args ctx next kwargs h,
     h !! a = Some o ->
     resolve_run user_run (ob_type o) = Some RunChain ->
     ob_attrs o !! "collection" = Some (AList [A; B]) ->
     free_kwargs kwargs ->
     run code user_run (S (S fuel)) (VRef a) args (run_kw ctx next kwargs) h =
       run code user_run fuel B args (run_kw ctx (VLambda A next) kwargs) h /\
     (forall fuel' args' ctx' kwargs' h',
        kwargs' !! "ctx" = None -> kwargs' !! "next" = None ->
        call code user_run (S fuel') (VLambda A next) args'
          (<["ctx" := ctx']> kwargs') h' =
        run code user_run fuel' A args' (run_kw ctx' next kwargs') h')) /\
  (forall v args n,
     (chain_test (8 + n) v args []).1 =
       Done (v, [VStr "B-before"; VStr "A-before"; VStr "T";
                 VStr "A-after"; VStr "B-after"])).
Proof.
  split.
  - intros code user_run fuel a o A B args ctx next kwargs h Ha Hm Hl Hk.
    split.
    + rewrite (run_chain_fold _ _ _ _ _ _ _ _ _ _ _ Ha Hm Hl Hk). simpl foldl.
      destruct Hk as (_ & Hc & Hn). by apply call_lambda.
    + intros. by apply call_lambda.
  - intros v args n. vm_compute. reflexivity.
Qed.

Lemma MiddlewareChain_run_order_witness :
  let code := fixture_code (VStr "T") in
  let h := (chain_test 0 (VStr "T") [] []).2 in
  run code no_user_run 9 (VRef 1) [] (run_kw (VRef 0) (VFunc true "T") ∅) h =
    run code no_user_run 7 (VRef 3) []
      (run_kw (VRef 0) (VLambda (VRef 2) (VFunc true "T")) ∅) h.
Proof.
  refine (proj1 (proj1 MiddlewareChain_run_order
    (fixture_code (VStr "T")) no_user_run 7 1 _ (VRef 2) (VRef 3)
    [] (VRef 0) (VFunc true "T") ∅ _ _ _ _ _)).
  - reflexivity.
  - reflexivity.
  - reflexivity.
  - by vm_compute.
Defined.

(** ** The groups *)




Section GroupLoops.
Variables call member : Caller.
Variable self : Value.
Variable args : list Value.
Variables ctx next : Value.
Variable kwargs : gmap string Value.
Hypothesis Hc : kwargs !! "ctx" = None.
Hypothesis Hn : kwargs !! "next" = None.

Local Abbreviation kw := (run_kw ctx next kwargs).
Local Abbreviation test := (is_successful_result call).
Local Abbreviation loop budget i :=
  (OneOfAll_loop call member budget self i args ctx next kwargs).
Local Abbreviation results budget i :=
  (AllOfAll_results member budget self i args ctx next kwargs).












End GroupLoops.



Section Groups.
Variable code : FnId -> Caller -> Callee.
Variable user_run : string -> option (Caller -> Value -> Callee).


End Groups.



(** A member that adds a member to its group while the group runs: the
    loops take the new member in their next round. *)
Example groups_see_added_members :
  let code := class_code VNone in
  let kw := run_kw (VRef 0) (VFunc true "T") ∅ in
  let first := run code no_user_run 3 (VRef 1) [] kw
                 (group_fixture TyOneOfAll ["G"]) in
  let every := run code no_user_run 3 (VRef 1) [] kw
                 (group_fixture TyAllOfAll ["G"]) in
  first.1 = Done (VStr "X") /\
  get_list (VRef 0) "log" first.2 = (Done [VStr "G"; VStr "M2"], first.2) /\
  every.1 = Done (VTuple [VEnum IGNORE; VStr "X"]) /\
  get_list (VRef 1) "collection" every.2 = (Done [VRef 2; VRef 3], every.2).
Proof. by vm_compute. Qed.


(** ** The state injector *)

Lemma type_of_insert v t c oc o' (h : Heap) :
  h !! c = Some oc -> ob_type o' = ob_type oc ->
  type_of v h = (Done t, h) ->
  type_of v (<[c := o']> h) = (Done t, <[c := o']> h).
Proof.
  intros Hc Ht. destruct v; unfold type_of;
    try (intros [= <-]; reflexivity).
  destruct (decide (a = c)) as [->|Hne].
  - rewrite Hc. intros [= <-].
    rewrite list_lookup_insert_eq by (by eapply lookup_lt_Some).
    by rewrite Ht.
  - rewrite list_lookup_insert_ne by done.
    by destruct (h !! a); intros [= <-].
Qed.

Lemma ensure_context_spec c oc d (h : Heap) :
  h !! c = Some oc -> states_of oc = Some d ->
  exists h',
    MiddlewareState__ensure_context (VRef c) h = (Done tt, h') /\
    h' !! c = Some (mkObject (ob_type oc)
                      (<["states" := ADict d]> (ob_attrs oc))) /\
    <[c := mkObject (ob_type oc) (<["states" := ADict d]> (ob_attrs oc))]> h
      = h'.
Proof.
  intros Hc Hd. unfold MiddlewareState__ensure_context, states_of in *.
  assert (Hlt : c < length h) by (by eapply lookup_lt_Some).
  destruct (ob_attrs oc !! "states") as [x|] eqn:Hs.
  - assert (Hget : getattr_default (VRef c) "states" (AVal VNone) h
                   = (Done x, h)).
    { unfold getattr_default. by rewrite (getattr_ref _ _ _ _ _ Hc Hs). }
    rewrite (mbind_done _ _ _ _ _ Hget).
    destruct x as [[]| |d']; try discriminate.
    + injection Hd as <-. rewrite (setattr_ref _ _ _ _ _ Hc).
      eexists. split; [done|]. split; [|done].
      by rewrite list_lookup_insert_eq.
    + injection Hd as <-.
      assert (Hid : mkObject (ob_type oc)
                      (<["states" := ADict d']> (ob_attrs oc)) = oc).
      { destruct oc as [ty attrs]. simpl in *. f_equal. by apply insert_id. }
      exists h. split; [done|]. rewrite Hid. split; [done|].
      by apply list_insert_id.
  - assert (Hget : getattr_default (VRef c) "states" (AVal VNone) h
                   = (Done (AVal VNone), h)).
    { unfold getattr_default. simpl. by rewrite Hc, Hs. }
    rewrite (mbind_done _ _ _ _ _ Hget).
    injection Hd as <-. rewrite (setattr_ref _ _ _ _ _ Hc).
    eexists. split; [done|]. split; [|done].
    by rewrite list_lookup_insert_eq.
Qed.

Lemma set_state_spec c oc d state ty (h : Heap) :
  h !! c = Some oc -> states_of oc = Some d ->
  type_of state h = (Done ty, h) ->
  MiddlewareState_set_state (VRef c) state h =
    (Done tt, store_state c oc d ty state h).
Proof.
  intros Hc Hd Hty.
  destruct (ensure_context_spec _ _ _ _ Hc Hd) as (h' & He & Hc' & Hh').
  unfold MiddlewareState_set_state.
  rewrite (mbind_done _ _ _ _ _ He).
  rewrite (mbind_done _ _ _ _ _
             (getattr_ref _ _ _ "states" _ Hc' (lookup_insert_eq _ _ _))).
  assert (Hty' : type_of state h' = (Done ty, h')).
  { rewrite <- Hh'. by eapply type_of_insert. }
  rewrite (mbind_done _ _ _ _ _ Hty').
  rewrite (setattr_ref _ _ _ _ _ Hc'). simpl.
  rewrite insert_insert_eq. rewrite <- Hh'.
  by rewrite list_insert_insert_eq.
Qed.

Lemma get_state_stored c oc d state ty (h : Heap) :
  h !! c = Some oc ->
  let h' := store_state c oc d ty state h in
  MiddlewareState_get_state (VRef c) ty h' = (Done state, h').
Proof.
  intros Hc h'.
  assert (Hc' : h' !! c = Some (mkObject (ob_type oc)
             (<["states" := ADict (<[ty := state]> d)]> (ob_attrs oc)))).
  { unfold h', store_state. rewrite list_lookup_insert_eq; [done|].
    by eapply lookup_lt_Some. }
  assert (Hd : states_of (mkObject (ob_type oc)
             (<["states" := ADict (<[ty := state]> d)]> (ob_attrs oc)))
           = Some (<[ty := state]> d)).
  { unfold states_of. simpl. by rewrite lookup_insert_eq. }
  destruct (ensure_context_spec _ _ _ _ Hc' Hd) as (h'' & He & _ & Hh'').
  assert (h'' = h') as ->.
  { rewrite <- Hh''. simpl. rewrite insert_insert_eq.
    by apply list_insert_id. }
  unfold MiddlewareState_get_state.
  rewrite (mbind_done _ _ _ _ _ He).
  rewrite (mbind_done _ _ _ _ _
             (getattr_ref _ _ _ "states" _ Hc' (lookup_insert_eq _ _ _))).
  by rewrite lookup_insert_eq.
Qed.




Section StateInjector.
Variable code : FnId -> Caller -> Callee.
Variable user_run : string -> option (Caller -> Value -> Callee).



Lemma MiddlewareState_run_core (call : Caller) a o s k c oc d args next
    kwargs h state ty h1 kwargs' :
  h !! a = Some o ->
  ob_attrs o !! "state" = Some (AVal s) ->
  resolves call s h state h1 ->
  get_value (VRef a) "key" h1 = (Done k, h1) ->
  h1 !! c = Some oc ->
  states_of oc = Some d ->
  type_of state h1 = (Done ty, h1) ->
  (truthy k = false /\ kwargs' = kwargs) \/
  (exists key, k = VStr key /\ key <> "" /\
     kwargs' = <[key := state]> kwargs) ->
  MiddlewareState_run call (VRef a) args (VRef c) next kwargs h =
    (kw ← keywords [("ctx", VRef c)] kwargs'; call next args kw)
      (store_state c oc d ty state h1).
Proof.
  intros Ha Hs Hres Hk Hc Hd Hty Hkey. unfold MiddlewareState_run.
  rewrite (mbind_done _ _ _ _ _ (get_value_ref _ _ _ _ _ Ha Hs)).
  assert (Hstep :
    (match s with
     | VType t => if issubclass t TyContextState then call s [] ∅ else ret s
     | _ => ret s
     end) h = (Done state, h1)).
  { unfold resolves, per_run_class in Hres.
    destruct s; try (by destruct Hres as [-> ->]).
    destruct (issubclass t TyContextState); [done|].
    by destruct Hres as [-> ->]. }
  rewrite (mbind_done _ _ _ _ _ Hstep).
  rewrite (mbind_done _ _ _ _ _ Hk).
  assert (Htruth : truth k h1 = (Done (truthy k), h1)).
  { apply truth_data. intros b ->.
    by destruct Hkey as [(Hf & _) | (key & Hb & _)]. }
  rewrite (mbind_done _ _ _ _ _ Htruth).
  rewrite (mbind_done _ _ _ _ _ (set_state_spec _ _ _ _ _ _ Hc Hd Hty)).
  destruct Hkey as [(Hf & ->) | (key & -> & Hne & ->)].
  - by rewrite Hf.
  - assert (truthy (VStr key) = true) as ->.
    { unfold truthy. by rewrite bool_decide_eq_false_2. }
    done.
Qed.




(** C10: with the empty string as [key] the injector forwards the
    keyword arguments it received and no other, as it does with
    [key = None]; the resolved state is stored all the same. *)
Theorem MiddlewareState_run_empty_key fuel a o s k c oc d args next kwargs
    h state h1 ty :
  h !! a = Some o ->
  resolve_run user_run (ob_type o) = Some RunState ->
  ob_attrs o !! "state" = Some (AVal s) ->
  free_kwargs kwargs ->
  resolves (call code user_run fuel) s h state h1 ->
  get_value (VRef a) "key" h1 = (Done k, h1) ->
  k = VStr "" \/ k = VNone ->
  h1 !! c = Some oc ->
  states_of oc = Some d ->
  type_of state h1 = (Done ty, h1) ->
  let h' := store_state c oc d ty state h1 in
  MiddlewareState_get_state (VRef c) ty h' = (Done state, h') /\
  run code user_run (S fuel) (VRef a) args (run_kw (VRef c) next kwargs) h
    = call code user_run fuel next args (<["ctx" := VRef c]> kwargs) h'.
Proof.
  intros Ha Hm Hs Hfree Hres Hk Hkey Hc Hd Hty h'.
  assert (Hf : truthy k = false) by (by destruct Hkey as [-> | ->]).
  assert (Hfc : kwargs !! "ctx" = None) by (by destruct Hfree as (_ & ? & _)).
  split; [by apply get_state_stored|].
  rewrite (run_resolved _ _ _ _ _ _ _ _ _ _ _ Ha Hm) by done.
  erewrite MiddlewareState_run_core; try done.
  - by rewrite (mbind_done _ _ _ _ _ (keywords_ctx _ _ _ Hfc)).
  - by left.
Qed.
End StateInjector.



Lemma MiddlewareState_run_empty_key_witness :
  let code := class_code (VStr "T") in
  let h := injector_fixture (VType Session) (VStr "") in
  let h1 := h ++ [mkObject Session {["user" := AVal (VStr "guest")]}] in
  let h' := store_state 0 (mkObject TyObject {["log" := AList []]}) ∅
              Session (VRef 2) h1 in
  MiddlewareState_get_state (VRef 0) Session h' = (Done (VRef 2), h') /\
  run code no_user_run 3 (VRef 1) [] (run_kw (VRef 0) (VFunc true "T") ∅) h
    = call code no_user_run 2 (VFunc true "T") [] (<["ctx" := VRef 0]> ∅) h'.
Proof.
  intros code h h1 h'.
  refine (MiddlewareState_run_empty_key code no_user_run 2 1
    (mkObject TyMiddlewareState
       {["fn" := AVal VNone; "state" := AVal (VType Session);
         "key" := AVal (VStr "")]})
    (VType Session) (VStr "") 0
    (mkObject TyObject {["log" := AList []]}) ∅ [] (VFunc true "T") ∅ h
    (VRef 2) h1 Session _ _ _ _ _ _ _ _ _ _).
  - reflexivity.
  - reflexivity.
  - reflexivity.
  - by vm_compute.
  - by vm_compute.
  - reflexivity.
  - by left.
  - reflexivity.
  - reflexivity.
  - reflexivity.
Defined.

(** ** Construction *)

Lemma setattr_last (h : Heap) o name x :
  setattr (VRef (length h)) name x (h ++ [o]) =
    (Done tt, h ++ [mkObject (ob_type o) (<[name := x]> (ob_attrs o))]).
Proof.
  assert (Hl : (h ++ [o]) !! length h = Some o)
    by (by apply list_lookup_middle).
  rewrite (setattr_ref _ _ _ _ _ Hl). f_equal. rewrite insert_app_r_alt by done.
  by rewrite Nat.sub_diag.
Qed.

Lemma MiddlewareFunction_new_coroutine fn (h : Heap) :
  iscoroutinefunction fn = true ->
  MiddlewareFunction_new fn h = (Done (VRef (length h)), h ++ [adapter fn]).
Proof.
  intros Hco.
  unfold MiddlewareFunction_new, new, alloc, MiddlewareFunction_init,
    Middleware_init, mbind, M_bind, bind.
  rewrite setattr_last, Hco. cbn [negb]. rewrite setattr_last.
  cbn [ob_attrs ob_type]. by rewrite insert_insert_eq.
Qed.

Lemma MiddlewareFunction_new_not_coroutine fn (h : Heap) :
  iscoroutinefunction fn = false ->
  MiddlewareFunction_new fn h =
    (Raised (ValueError "Not a coroutine"), h ++ [adapter VNone]).
Proof.
  intros Hco.
  unfold MiddlewareFunction_new, new, alloc, MiddlewareFunction_init,
    Middleware_init, mbind, M_bind, bind.
  by rewrite setattr_last, Hco.
Qed.

Lemma getattr_insert_attr v name x a o name' y (h : Heap) :
  h !! a = Some o -> name <> name' ->
  let h' := <[a := mkObject (ob_type o) (<[name' := y]> (ob_attrs o))]> h in
  getattr v name h = (Done x, h) -> getattr v name h' = (Done x, h').
Proof.
  intros Ha Hne h'. destruct v; unfold getattr; try discriminate.
  unfold h'. destruct (decide (a0 = a)) as [->|Hd].
  - rewrite Ha, list_lookup_insert_eq by (by eapply lookup_lt_Some).
    cbn [ob_attrs]. rewrite lookup_insert_ne by done.
    by destruct (ob_attrs o !! name); intros [= <-].
  - rewrite list_lookup_insert_ne by done.
    destruct (h !! a0) as [o0|]; [|discriminate].
    by destruct (ob_attrs o0 !! name); intros [= <-].
Qed.

Lemma isinstance_spec v t cls (h : Heap) :
  type_of v h = (Done t, h) ->
  isinstance v cls h = (Done (issubclass t cls), h).
Proof. intros Ht. unfold isinstance. by rewrite (mbind_done _ _ _ _ _ Ht). Qed.

Lemma MiddlewareCollection_add_middleware_spec a o l mw t (h : Heap) :
  h !! a = Some o ->
  ob_attrs o !! "collection" = Some (AList l) ->
  type_of mw h = (Done t, h) ->
  MiddlewareCollection_add_middleware (VRef a) mw h =
    if issubclass t TyMiddleware
    then (Done mw,
          <[a := mkObject (ob_type o)
                   (<["collection" := AList (l ++ [mw])]> (ob_attrs o))]> h)
    else (Raised (ValueError "Not a middleware"), h).
Proof.
  intros Ha Hl Ht. unfold MiddlewareCollection_add_middleware.
  rewrite (mbind_done _ _ _ _ _ (isinstance_spec _ _ TyMiddleware _ Ht)).
  destruct (issubclass t TyMiddleware); cbn [negb]; [|done].
  rewrite (mbind_done _ _ _ _ _ (get_list_ref _ _ _ _ Ha Hl)).
  by rewrite (mbind_done _ _ _ _ _ (setattr_ref _ _ _ _ _ Ha)).
Qed.

Lemma MiddlewareChain_add_middleware_spec a o l mw t fn (h : Heap) :
  h !! a = Some o ->
  ob_attrs o !! "collection" = Some (AList l) ->
  type_of mw h = (Done t, h) ->
  issubclass t TyMiddleware = true ->
  getattr mw "fn" h = (Done fn, h) ->
  MiddlewareChain_add_middleware (VRef a) mw h =
    (Done mw, <[a := chain_added o l mw fn]> h).
Proof.
  intros Ha Hl Ht Hsub Hfn. unfold MiddlewareChain_add_middleware.
  assert (Hlt : a < length h) by (by eapply lookup_lt_Some).
  pose proof (MiddlewareCollection_add_middleware_spec _ _ _ _ _ _ Ha Hl Ht)
    as Hadd.
  rewrite Hsub in Hadd. rewrite (mbind_done _ _ _ _ _ Hadd).
  set (o1 := mkObject (ob_type o)
               (<["collection" := AList (l ++ [mw])]> (ob_attrs o))).
  assert (Ha1 : <[a := o1]> h !! a = Some o1)
    by (by apply list_lookup_insert_eq).
  rewrite (mbind_done _ _ _ _ _
    (get_list_ref _ _ _ (l ++ [mw]) Ha1 (lookup_insert_eq _ _ _))).
  unfold chain_added. fold o1.
  destruct l as [|m l'].
  - rewrite !bool_decide_eq_true_2 by done.
    assert (Hne : "fn" <> "collection") by done.
    pose proof (getattr_insert_attr mw "fn" fn a o "collection"
                  (AList ([] ++ [mw])) h Ha Hne Hfn) as Hfn1.
    cbn zeta in Hfn1. fold o1 in Hfn1.
    rewrite mbind_assoc, (mbind_done _ _ _ _ _ Hfn1).
    rewrite (mbind_done _ _ _ _ _ (setattr_ref _ _ _ _ _ Ha1)).
    cbn [ret]. by rewrite list_insert_insert_eq.
  - rewrite !bool_decide_eq_false_2; [done| done |].
    rewrite length_app. simpl. lia.
Qed.

Lemma add_middleware_not_unit a o l mw t (h : Heap) :
  h !! a = Some o ->
  issubclass (ob_type o) TyMiddlewareCollection = true ->
  ob_attrs o !! "collection" = Some (AList l) ->
  type_of mw h = (Done t, h) ->
  issubclass t TyMiddleware = false ->
  add_middleware (VRef a) mw h = (Raised (ValueError "Not a middleware"), h).
Proof.
  intros Ha Hcls Hl Ht Hsub. unfold add_middleware.
  rewrite (mbind_done _ _ _ _ _ (type_of_ref _ _ _ Ha)), Hcls.
  pose proof (MiddlewareCollection_add_middleware_spec _ _ _ _ _ _ Ha Hl Ht)
    as Hadd.
  rewrite Hsub in Hadd.
  destruct (issubclass (ob_type o) TyMiddlewareChain); [|done].
  unfold MiddlewareChain_add_middleware.
  by rewrite (mbind_raised _ _ _ _ _ Hadd).
Qed.

Lemma add_middleware_unit a o l mw t fn (h : Heap) :
  h !! a = Some o ->
  issubclass (ob_type o) TyMiddlewareCollection = true ->
  ob_attrs o !! "collection" = Some (AList l) ->
  type_of mw h = (Done t, h) ->
  issubclass t TyMiddleware = true ->
  getattr mw "fn" h = (Done fn, h) ->
  exists o',
    add_middleware (VRef a) mw h = (Done mw, <[a := o']> h) /\
    ob_type o' = ob_type o /\
    ob_attrs o' !! "collection" = Some (AList (l ++ [mw])) /\
    (is_Some (ob_attrs o !! "fn") -> is_Some (ob_attrs o' !! "fn")).
Proof.
  intros Ha Hcls Hl Ht Hsub Hfn. unfold add_middleware.
  rewrite (mbind_done _ _ _ _ _ (type_of_ref _ _ _ Ha)), Hcls.
  destruct (issubclass (ob_type o) TyMiddlewareChain).
  - exists (chain_added o l mw fn). split; [|split; [done|split]].
    + by eapply MiddlewareChain_add_middleware_spec.
    + unfold chain_added. cbn [ob_attrs]. case_bool_decide.
      * rewrite lookup_insert_ne by done. by rewrite lookup_insert_eq.
      * by rewrite lookup_insert_eq.
    + unfold chain_added. cbn [ob_attrs]. case_bool_decide.
      * by rewrite lookup_insert_eq.
      * by rewrite lookup_insert_ne.
  - exists (mkObject (ob_type o)
              (<["collection" := AList (l ++ [mw])]> (ob_attrs o))).
    split; [|split; [done|split]].
    + rewrite (MiddlewareCollection_add_middleware_spec _ _ _ _ _ _ Ha Hl Ht).
      by rewrite Hsub.
    + cbn [ob_attrs]. by rewrite lookup_insert_eq.
    + cbn [ob_attrs]. by rewrite lookup_insert_ne.
Qed.

(** C7, as the code has it: [as_middleware(fn)] makes no test on [fn] of
    its own and calls the constructor of the adapter.  The call returns
    a new adapter holding [fn] when [fn] is a coroutine function and
    raises [ValueError] otherwise; a middleware object is not a
    coroutine function.  Two calls on the same coroutine function return
    two distinct adapters, both holding [fn]. *)
Theorem as_middleware_wraps fn (h : Heap) :
  (iscoroutinefunction fn = true ->
     as_middleware fn h = (Done (VRef (length h)), h ++ [adapter fn]) /\
     h !! length h = None) /\
  (iscoroutinefunction fn = false ->
     as_middleware fn h =
       (Raised (ValueError "Not a coroutine"), h ++ [adapter VNone])) /\
  (forall t, type_of fn h = (Done t, h) -> issubclass t TyMiddleware = true ->
     iscoroutinefunction fn = false) /\
  (forall u1 h1 u2 h2,
     as_middleware fn h = (Done u1, h1) ->
     as_middleware fn h1 = (Done u2, h2) ->
     u1 <> u2 /\
     isinstance u1 TyMiddlewareFunction h2 = (Done true, h2) /\
     isinstance u2 TyMiddlewareFunction h2 = (Done true, h2) /\
     get_value u1 "fn" h2 = (Done fn, h2) /\
     get_value u2 "fn" h2 = (Done fn, h2)).
Proof.
  unfold as_middleware. split; [|split; [|split]].
  - intros Hco. split; [by apply MiddlewareFunction_new_coroutine|].
    by apply lookup_ge_None.
  - by apply MiddlewareFunction_new_not_coroutine.
  - intros t Ht Hsub. destruct fn; try done.
    all: simpl in Ht; injection Ht as <-; by vm_compute in Hsub.
  - intros u1 h1 u2 h2.
    destruct (iscoroutinefunction fn) eqn:Hco.
    + rewrite (MiddlewareFunction_new_coroutine _ _ Hco).
      intros [= <- <-].
      rewrite (MiddlewareFunction_new_coroutine _ _ Hco).
      intros [= <- <-]. rewrite length_app. simpl.
      assert (H1 : ((h ++ [adapter fn]) ++ [adapter fn]) !! length h
                   = Some (adapter fn)).
      { rewrite lookup_app_l by (rewrite length_app; simpl; lia).
        by rewrite list_lookup_middle. }
      assert (H2 : ((h ++ [adapter fn]) ++ [adapter fn]) !! (length h + 1)
                   = Some (adapter fn)).
      { rewrite list_lookup_middle; [done|]. rewrite length_app. simpl. lia. }
      split; [intros [=]; lia|].
      pose proof (type_of_ref _ _ _ H1) as T1.
      pose proof (type_of_ref _ _ _ H2) as T2.
      cbn [adapter ob_type] in T1, T2.
      rewrite (isinstance_spec _ _ TyMiddlewareFunction _ T1).
      rewrite (isinstance_spec _ _ TyMiddlewareFunction _ T2).
      split; [done|]. split; [done|].
      split; by eapply get_value_ref.
    + rewrite (MiddlewareFunction_new_not_coroutine _ _ Hco). discriminate.
Qed.

Lemma as_middleware_wraps_witness :
  as_middleware (VFunc true "A") [] =
    (Done (VRef 0), [adapter (VFunc true "A")]) /\
  as_middleware (VFunc true "A") [adapter (VFunc true "A")] =
    (Done (VRef 1), [adapter (VFunc true "A"); adapter (VFunc true "A")]).
Proof.
  split.
  - apply (proj1 (as_middleware_wraps (VFunc true "A") [])). reflexivity.
  - apply (proj1 (as_middleware_wraps (VFunc true "A")
                    [adapter (VFunc true "A")])). reflexivity.
Defined.

(** C7, the claim as stated fails: [as_middleware] raises [ValueError] on
    a function that is not a coroutine function, and on a value that is
    already a middleware. *)
Lemma as_middleware_raises :
  (as_middleware (VFunc false "handler") []).1 =
    Raised (ValueError "Not a coroutine") /\
  (let h := [adapter (VFunc true "A")] in
   isinstance (VRef 0) TyMiddleware h = (Done true, h) /\
   (as_middleware (VRef 0) h).1 = Raised (ValueError "Not a coroutine")).
Proof. by vm_compute. Qed.

Lemma getattr_insert_attr_any v name a o name' y r (h : Heap) :
  h !! a = Some o -> name <> name' ->
  let h' := <[a := mkObject (ob_type o) (<[name' := y]> (ob_attrs o))]> h in
  getattr v name h = (r, h) -> getattr v name h' = (r, h').
Proof.
  intros Ha Hne h'. destruct v; unfold getattr; try (by intros [= <-]).
  unfold h'. destruct (decide (a0 = a)) as [->|Hd].
  - rewrite Ha, list_lookup_insert_eq by (by eapply lookup_lt_Some).
    cbn [ob_attrs]. rewrite lookup_insert_ne by done.
    by destruct (ob_attrs o !! name); intros [= <-].
  - rewrite list_lookup_insert_ne by done.
    destruct (h !! a0) as [o0|]; [|by intros [= <-]].
    by destruct (ob_attrs o0 !! name); intros [= <-].
Qed.

(** A middleware either has the attribute [fn] or reading it raises
    [AttributeError]. *)
Lemma getattr_fn_cases mw t (h : Heap) :
  type_of mw h = (Done t, h) ->
  issubclass t TyMiddleware = true ->
  (exists fn, getattr mw "fn" h = (Done fn, h)) \/
  getattr mw "fn" h = (Raised (AttributeError "fn"), h).
Proof.
  intros Ht Hsub. destruct mw;
    try (simpl in Ht; injection Ht as <-; by vm_compute in Hsub).
  unfold getattr. unfold type_of in Ht.
  destruct (h !! a) as [o|]; [|done].
  destruct (ob_attrs o !! "fn"); [left; by eexists | by right].
Qed.

Lemma MiddlewareChain_add_middleware_later a o l mw t (h : Heap) :
  h !! a = Some o ->
  ob_attrs o !! "collection" = Some (AList l) ->
  type_of mw h = (Done t, h) ->
  issubclass t TyMiddleware = true ->
  l <> [] ->
  MiddlewareChain_add_middleware (VRef a) mw h =
    (Done mw,
     <[a := mkObject (ob_type o)
              (<["collection" := AList (l ++ [mw])]> (ob_attrs o))]> h).
Proof.
  intros Ha Hl Ht Hsub Hne. unfold MiddlewareChain_add_middleware.
  assert (Hlt : a < length h) by (by eapply lookup_lt_Some).
  pose proof (MiddlewareCollection_add_middleware_spec _ _ _ _ _ _ Ha Hl Ht)
    as Hadd.
  rewrite Hsub in Hadd. rewrite (mbind_done _ _ _ _ _ Hadd).
  set (o1 := mkObject (ob_type o)
               (<["collection" := AList (l ++ [mw])]> (ob_attrs o))).
  assert (Ha1 : <[a := o1]> h !! a = Some o1)
    by (by apply list_lookup_insert_eq).
  rewrite (mbind_done _ _ _ _ _
    (get_list_ref _ _ _ (l ++ [mw]) Ha1 (lookup_insert_eq _ _ _))).
  rewrite bool_decide_eq_false_2; [done|].
  destruct l; [done|]. rewrite length_app. simpl. lia.
Qed.

Lemma MiddlewareChain_add_middleware_no_fn a o mw t e (h : Heap) :
  h !! a = Some o ->
  ob_attrs o !! "collection" = Some (AList []) ->
  type_of mw h = (Done t, h) ->
  issubclass t TyMiddleware = true ->
  getattr mw "fn" h = (Raised e, h) ->
  MiddlewareChain_add_middleware (VRef a) mw h =
    (Raised e,
     <[a := mkObject (ob_type o)
              (<["collection" := AList [mw]]> (ob_attrs o))]> h).
Proof.
  intros Ha Hl Ht Hsub Hfn. unfold MiddlewareChain_add_middleware.
  assert (Hlt : a < length h) by (by eapply lookup_lt_Some).
  pose proof (MiddlewareCollection_add_middleware_spec _ _ _ _ _ _ Ha Hl Ht)
    as Hadd.
  rewrite Hsub in Hadd. rewrite (mbind_done _ _ _ _ _ Hadd). cbn [app].
  set (o1 := mkObject (ob_type o)
               (<["collection" := AList [mw]]> (ob_attrs o))).
  assert (Ha1 : <[a := o1]> h !! a = Some o1)
    by (by apply list_lookup_insert_eq).
  rewrite (mbind_done _ _ _ _ _
    (get_list_ref _ _ _ [mw] Ha1 (lookup_insert_eq _ _ _))).
  rewrite bool_decide_eq_true_2 by done.
  assert (Hne : "fn" <> "collection") by done.
  pose proof (getattr_insert_attr_any mw "fn" a o "collection"
                (AList [mw]) _ h Ha Hne Hfn) as Hfn1.
  cbn zeta in Hfn1. fold o1 in Hfn1.
  apply mbind_raised. by apply mbind_raised.
Qed.

Lemma add_middleware_unit_gen a o l mw t (h : Heap) :
  h !! a = Some o ->
  issubclass (ob_type o) TyMiddlewareCollection = true ->
  ob_attrs o !! "collection" = Some (AList l) ->
  type_of mw h = (Done t, h) ->
  issubclass t TyMiddleware = true ->
  issubclass (ob_type o) TyMiddlewareChain = false \/ l <> [] \/
    (exists fn, getattr mw "fn" h = (Done fn, h)) ->
  exists o',
    add_middleware (VRef a) mw h = (Done mw, <[a := o']> h) /\
    ob_type o' = ob_type o /\
    ob_attrs o' !! "collection" = Some (AList (l ++ [mw])) /\
    (is_Some (ob_attrs o !! "fn") -> is_Some (ob_attrs o' !! "fn")).
Proof.
  intros Ha Hcls Hl Ht Hsub Hcase.
  assert (Hplain :
    (issubclass (ob_type o) TyMiddlewareChain = false \/ l <> []) ->
    exists o',
      add_middleware (VRef a) mw h = (Done mw, <[a := o']> h) /\
      ob_type o' = ob_type o /\
      ob_attrs o' !! "collection" = Some (AList (l ++ [mw])) /\
      (is_Some (ob_attrs o !! "fn") -> is_Some (ob_attrs o' !! "fn"))).
  { intros Hc.
    exists (mkObject (ob_type o)
              (<["collection" := AList (l ++ [mw])]> (ob_attrs o))).
    split; [|split; [done|split]].
    - unfold add_middleware.
      rewrite (mbind_done _ _ _ _ _ (type_of_ref _ _ _ Ha)), Hcls.
      destruct (issubclass (ob_type o) TyMiddlewareChain) eqn:Hchain.
      + destruct Hc as [? | Hne]; [done|].
        by eapply MiddlewareChain_add_middleware_later.
      + rewrite (MiddlewareCollection_add_middleware_spec
                   _ _ _ _ _ _ Ha Hl Ht).
        by rewrite Hsub.
    - cbn [ob_attrs]. by rewrite lookup_insert_eq.
    - cbn [ob_attrs]. by rewrite lookup_insert_ne. }
  destruct Hcase as [Hnc | [Hne | [fn Hfn]]]; [by auto | by auto |].
  by eapply add_middleware_unit.
Qed.

Lemma add_middleware_no_fn a o mw t e (h : Heap) :
  h !! a = Some o ->
  issubclass (ob_type o) TyMiddlewareChain = true ->
  ob_attrs o !! "collection" = Some (AList []) ->
  type_of mw h = (Done t, h) ->
  issubclass t TyMiddleware = true ->
  getattr mw "fn" h = (Raised e, h) ->
  add_middleware (VRef a) mw h =
    (Raised e,
     <[a := mkObject (ob_type o)
              (<["collection" := AList [mw]]> (ob_attrs o))]> h).
Proof.
  intros Ha Hcls Hl Ht Hsub Hfn. unfold add_middleware.
  rewrite (mbind_done _ _ _ _ _ (type_of_ref _ _ _ Ha)), Hcls.
  by eapply MiddlewareChain_add_middleware_no_fn.
Qed.

Lemma appended_insert a o o' l mw (h : Heap) :
  h !! a = Some o ->
  ob_attrs o' !! "collection" = Some (AList (l ++ [mw])) ->
  appended a l mw h (<[a := o']> h).
Proof.
  intros Ha Hl. split; [|split].
  - eapply get_list_ref; [|done].
    apply list_lookup_insert_eq. by eapply lookup_lt_Some.
  - by rewrite length_insert.
  - intros b Hb. by rewrite list_lookup_insert_ne.
Qed.

(** C8, as the code has it: the constructor of the adapter raises
    [ValueError] exactly when its argument is not a coroutine function;
    [add_middleware] raises [ValueError] exactly when its argument is
    not a middleware, leaving the heap as it was.  A middleware is
    appended to [collection], no other object is touched, and it is
    returned -- except when it becomes the first member of a chain and
    has no attribute [fn]: the chain reads [middleware.fn] after the
    append and the call raises [AttributeError]. *)
Theorem construction_errors :
  (forall fn (h : Heap),
     ((exists h', MiddlewareFunction_new fn h =
                    (Raised (ValueError "Not a coroutine"), h')) <->
      iscoroutinefunction fn = false) /\
     (iscoroutinefunction fn = true ->
      MiddlewareFunction_new fn h =
        (Done (VRef (length h)), h ++ [adapter fn]))) /\
  (forall a o l mw t (h : Heap),
     h !! a = Some o ->
     issubclass (ob_type o) TyMiddlewareCollection = true ->
     ob_attrs o !! "collection" = Some (AList l) ->
     type_of mw h = (Done t, h) ->
     ((exists h', add_middleware (VRef a) mw h =
                    (Raised (ValueError "Not a middleware"), h')) <->
      issubclass t TyMiddleware = false) /\
     (issubclass t TyMiddleware = false ->
      add_middleware (VRef a) mw h =
        (Raised (ValueError "Not a middleware"), h)) /\
     (issubclass t TyMiddleware = true ->
      ((exists fn, getattr mw "fn" h = (Done fn, h)) \/
       getattr mw "fn" h = (Raised (AttributeError "fn"), h)) /\
      (issubclass (ob_type o) TyMiddlewareChain = false \/ l <> [] \/
         (exists fn, getattr mw "fn" h = (Done fn, h)) ->
       exists h',
         add_middleware (VRef a) mw h = (Done mw, h') /\
         appended a l mw h h') /\
      (issubclass (ob_type o) TyMiddlewareChain = true -> l = [] ->
       getattr mw "fn" h = (Raised (AttributeError "fn"), h) ->
       exists h',
         add_middleware (VRef a) mw h = (Raised (AttributeError "fn"), h') /\
         appended a l mw h h'))).
Proof.
  split.
  - intros fn h. split; [split|].
    + intros [h' Hr]. destruct (iscoroutinefunction fn) eqn:Hco; [|done].
      by rewrite (MiddlewareFunction_new_coroutine _ _ Hco) in Hr.
    + intros Hco. eexists. by apply MiddlewareFunction_new_not_coroutine.
    + by apply MiddlewareFunction_new_coroutine.
  - intros a o l mw t h Ha Hcls Hl Ht.
    assert (Hgood : issubclass t TyMiddleware = true ->
      issubclass (ob_type o) TyMiddlewareChain = false \/ l <> [] \/
        (exists fn, getattr mw "fn" h = (Done fn, h)) ->
      exists h',
        add_middleware (VRef a) mw h = (Done mw, h') /\
        appended a l mw h h').
    { intros Hsub Hcase.
      destruct (add_middleware_unit_gen _ _ _ _ _ _ Ha Hcls Hl Ht Hsub Hcase)
        as (o' & Hadd & _ & Hl' & _).
      exists (<[a := o']> h). split; [done|]. by eapply appended_insert. }
    assert (Hbad : issubclass t TyMiddleware = true ->
      issubclass (ob_type o) TyMiddlewareChain = true -> l = [] ->
      getattr mw "fn" h = (Raised (AttributeError "fn"), h) ->
      exists h',
        add_middleware (VRef a) mw h = (Raised (AttributeError "fn"), h') /\
        appended a l mw h h').
    { intros Hsub Hchain -> Hfn. eexists. split.
      - by eapply add_middleware_no_fn.
      - eapply appended_insert; [done|]. cbn [ob_attrs app].
        by rewrite lookup_insert_eq. }
    split; [split|split].
    + intros [h' Hr]. destruct (issubclass t TyMiddleware) eqn:Hsub; [|done].
      destruct (getattr_fn_cases _ _ _ Ht Hsub) as [Hfn | Hfn].
      * destruct (Hgood eq_refl) as (h'' & Hadd & _); [by auto|]. congruence.
      * destruct (issubclass (ob_type o) TyMiddlewareChain) eqn:Hchain.
        -- destruct l as [|m l'].
           ++ destruct (Hbad eq_refl eq_refl eq_refl Hfn) as (h'' & Hadd & _).
              congruence.
           ++ destruct (Hgood eq_refl) as (h'' & Hadd & _); [by auto|].
              congruence.
        -- destruct (Hgood eq_refl) as (h'' & Hadd & _); [by auto|].
           congruence.
    + intros Hsub. eexists. by eapply add_middleware_not_unit.
    + intros Hsub. by eapply add_middleware_not_unit.
    + intros Hsub. split; [by eapply getattr_fn_cases|]. split; auto.
Qed.

Lemma construction_errors_witness :
  (exists h',
     add_middleware (VRef 1) (VRef 2) add_fixture = (Done (VRef 2), h') /\
     get_list (VRef 1) "collection" h' = (Done [VRef 2], h')) /\
  add_middleware (VRef 1) (VInt 3) add_fixture =
    (Raised (ValueError "Not a middleware"), add_fixture).
Proof.
  destruct (proj2 construction_errors 1
    (mkObject TyMiddlewareChain
       {["fn" := AVal VNone; "collection" := AList []]})
    [] (VRef 2) TyMiddlewareFunction add_fixture)
    as (_ & _ & Hgood); try reflexivity.
  destruct (proj2 construction_errors 1
    (mkObject TyMiddlewareChain
       {["fn" := AVal VNone; "collection" := AList []]})
    [] (VInt 3) TyInt add_fixture)
    as (_ & Hbad & _); try reflexivity.
  split.
  - destruct (Hgood eq_refl) as (_ & Hadd & _).
    destruct Hadd as (h' & Hadd & Hl & _).
    { right. right. by exists (AVal (VFunc true "A")). }
    by exists h'.
  - by apply Hbad.
Defined.

(** C8, the claim as stated fails: [Bare] is a subclass of [Middleware]
    whose [__init__] does not call [Middleware.__init__]; its instance
    is a middleware without [fn].  Added to an empty chain it is
    appended, and the call raises [AttributeError] instead of returning
    it. *)
Lemma add_middleware_without_fn :
  let h := bare_fixture in
  let r := add_middleware (VRef 1) (VRef 2) h in
  isinstance (VRef 2) TyMiddleware h = (Done true, h) /\
  get_list (VRef 1) "collection" h = (Done [], h) /\
  r.1 = Raised (AttributeError "fn") /\
  get_list (VRef 1) "collection" r.2 = (Done [VRef 2], r.2).
Proof. by vm_compute. Qed.

(** Objects that exist stay what they are when the heap grows or when
    another object is updated. *)
Lemma type_of_app v t (h l : Heap) :
  type_of v h = (Done t, h) -> type_of v (h ++ l) = (Done t, h ++ l).
Proof.
  destruct v; unfold type_of; try (by intros [= <-]).
  destruct (h !! a) as [o|] eqn:Ha; [|discriminate].
  intros [= <-]. by rewrite (lookup_app_l_Some _ _ _ _ Ha).
Qed.

Lemma getattr_app v name x (h l : Heap) :
  getattr v name h = (Done x, h) -> getattr v name (h ++ l) = (Done x, h ++ l).
Proof.
  destruct v; unfold getattr; try discriminate.
  destruct (h !! a) as [o|] eqn:Ha; [|discriminate].
  rewrite (lookup_app_l_Some _ _ _ _ Ha).
  by destruct (ob_attrs o !! name); intros [= <-].
Qed.

Lemma type_of_lt v t (h : Heap) :
  type_of v h = (Done t, h) -> v <> VRef (length h).
Proof.
  intros Ht ->. unfold type_of in Ht.
  by rewrite (lookup_ge_None_2 h (length h)) in Ht.
Qed.

Lemma type_of_insert_ne v t a o' (h : Heap) :
  v <> VRef a ->
  type_of v h = (Done t, h) ->
  type_of v (<[a := o']> h) = (Done t, <[a := o']> h).
Proof.
  intros Hne. destruct v; unfold type_of; try (by intros [= <-]).
  rewrite list_lookup_insert_ne by congruence.
  by destruct (h !! a0); intros [= <-].
Qed.

Lemma getattr_insert_ne v name x a o' (h : Heap) :
  v <> VRef a ->
  getattr v name h = (Done x, h) ->
  getattr v name (<[a := o']> h) = (Done x, <[a := o']> h).
Proof.
  intros Hne. destruct v; unfold getattr; try discriminate.
  rewrite list_lookup_insert_ne by congruence.
  destruct (h !! a0) as [o|]; [|discriminate].
  by destruct (ob_attrs o !! name); intros [= <-].
Qed.

Lemma getattr_app_any v name r t (h l : Heap) :
  type_of v h = (Done t, h) ->
  getattr v name h = (r, h) -> getattr v name (h ++ l) = (r, h ++ l).
Proof.
  destruct v; unfold type_of, getattr; try (by intros _ [= <-]).
  destruct (h !! a) as [o|] eqn:Ha; [|discriminate].
  rewrite (lookup_app_l_Some _ _ _ _ Ha).
  by destruct (ob_attrs o !! name); intros _ [= <-].
Qed.

Lemma MiddlewareCollection_new_spec cls (h : Heap) :
  issubclass cls TyMiddlewareCollection = true ->
  is_abstract cls = false ->
  default_constructor cls ->
  MiddlewareCollection_new cls h =
    (Done (VRef (length h)), h ++ [empty_collection cls]).
Proof.
  intros Hcls Habs [Hnew Hinit].
  unfold MiddlewareCollection_new, new, alloc, MiddlewareCollection_init,
    Middleware_init, mbind, M_bind, bind.
  rewrite Hcls, Habs, Hnew, Hinit. by rewrite !setattr_last.
Qed.

Lemma MiddlewareChain_new_spec (h : Heap) :
  MiddlewareCollection_new TyMiddlewareChain h =
    (Done (VRef (length h)), h ++ [empty_collection TyMiddlewareChain]).
Proof. by apply MiddlewareCollection_new_spec. Qed.

(** One round of the loop of [collection_of] on a collection at [a]
    whose sequence is [l]: the item is appended as it is when it is a
    middleware, and wrapped in a new adapter when it is a coroutine
    function. *)
Lemma collection_of_loop_cons a o l mw t rest (h : Heap) :
  h !! a = Some o ->
  issubclass (ob_type o) TyMiddlewareCollection = true ->
  ob_attrs o !! "collection" = Some (AList l) ->
  is_Some (ob_attrs o !! "fn") ->
  type_of mw h = (Done t, h) ->
  (issubclass t TyMiddleware = true ->
   issubclass (ob_type o) TyMiddlewareChain = false \/ l <> [] \/
     exists fn, getattr mw "fn" h = (Done fn, h)) ->
  (issubclass t TyMiddleware = false -> iscoroutinefunction mw = true) ->
  exists mw' o' h1,
    collection_of_loop (VRef a) (mw :: rest) h =
      collection_of_loop (VRef a) rest (<[a := o']> h1) /\
    ob_type o' = ob_type o /\
    ob_attrs o' !! "collection" = Some (AList (l ++ [mw'])) /\
    is_Some (ob_attrs o' !! "fn") /\
    (issubclass t TyMiddleware = true -> mw' = mw /\ h1 = h) /\
    (issubclass t TyMiddleware = false ->
     mw' = VRef (length h) /\ h1 = h ++ [adapter mw]).
Proof.
  intros Ha Hcls Hl Hf Ht Hunit Hco. cbn [collection_of_loop].
  rewrite (mbind_done _ _ _ _ _ (isinstance_spec _ _ TyMiddleware _ Ht)).
  destruct (issubclass t TyMiddleware) eqn:Hsub; cbn [negb].
  - rewrite mbind_ret.
    destruct (add_middleware_unit_gen _ _ _ _ _ _ Ha Hcls Hl Ht Hsub
                (Hunit eq_refl))
      as (o' & Hadd & Hty & Hl' & Hf').
    exists mw, o', h. rewrite (mbind_done _ _ _ _ _ Hadd).
    repeat split; auto; discriminate.
  - unfold as_middleware.
    rewrite (mbind_done _ _ _ _ _
               (MiddlewareFunction_new_coroutine _ _ (Hco eq_refl))).
    assert (Ha1 : (h ++ [adapter mw]) !! a = Some o)
      by (by apply lookup_app_l_Some).
    assert (Hm : (h ++ [adapter mw]) !! length h = Some (adapter mw))
      by (by apply list_lookup_middle).
    destruct (add_middleware_unit a o l (VRef (length h))
                TyMiddlewareFunction (AVal mw) (h ++ [adapter mw]))
      as (o' & Hadd & Hty & Hl' & Hf'); try done.
    { by rewrite (type_of_ref _ _ _ Hm). }
    { by apply (getattr_ref _ _ _ _ _ Hm). }
    exists (VRef (length h)), o', (h ++ [adapter mw]).
    rewrite (mbind_done _ _ _ _ _ Hadd).
    repeat split; auto; discriminate.
Qed.

Lemma chain_of_pair inner outer ti to (h : Heap) :
  type_of inner h = (Done ti, h) ->
  (issubclass ti TyMiddleware = true ->
   exists fi, getattr inner "fn" h = (Done fi, h)) ->
  (issubclass ti TyMiddleware = false -> iscoroutinefunction inner = true) ->
  type_of outer h = (Done to, h) ->
  issubclass to TyMiddleware = true ->
  exists inner' h',
    chain_of [inner; outer] h = (Done (VRef (length h)), h') /\
    h !! length h = None /\
    type_of (VRef (length h)) h' = (Done TyMiddlewareChain, h') /\
    get_list (VRef (length h)) "collection" h' = (Done [inner'; outer], h') /\
    (issubclass ti TyMiddleware = true -> inner' = inner) /\
    (issubclass ti TyMiddleware = false ->
     inner' = VRef (S (length h)) /\
     h' !! S (length h) = Some (adapter inner)) /\
    (forall b, b < length h -> h' !! b = h !! b).
Proof.
  intros Hti Hfi Hco Hto Hsub.
  set (n := length h). set (h0 := h ++ [empty_collection TyMiddlewareChain]).
  assert (Hn0 : h0 !! n = Some (empty_collection TyMiddlewareChain))
    by (by apply list_lookup_middle).
  assert (Hlen0 : length h0 = S n)
    by (unfold h0; rewrite length_app; simpl; lia).
  destruct (collection_of_loop_cons n _ [] inner ti [outer] h0 Hn0)
    as (inner' & o1 & h1 & Hstep1 & Hty1 & Hl1 & Hf1 & Hu1 & Hw1);
    try done.
  { by apply type_of_app. }
  { intros Hs. destruct (Hfi Hs) as [fi Hg]. right. right. exists fi.
    by apply getattr_app. }
  assert (Hlen1 : n < length h1 /\ forall b, b < n -> h1 !! b = h !! b).
  { destruct (issubclass ti TyMiddleware).
    - destruct (Hu1 eq_refl) as [_ ->]. split; [lia|].
      intros b Hb. unfold h0. by rewrite lookup_app_l.
    - destruct (Hw1 eq_refl) as [_ ->]. split.
      + rewrite length_app. lia.
      + intros b Hb. unfold h0. rewrite !lookup_app_l; [done|done|].
        rewrite length_app. unfold n in Hb. lia. }
  destruct Hlen1 as [Hlen1 Hframe1].
  assert (Houter : forall (P : Heap -> Prop),
    P h -> (forall g l, P g -> P (g ++ l)) -> P h1).
  { intros P Ph Papp. destruct (issubclass ti TyMiddleware).
    - destruct (Hu1 eq_refl) as [_ ->]. by apply Papp.
    - destruct (Hw1 eq_refl) as [_ ->]. by do 2 apply Papp. }
  assert (Hne : outer <> VRef n) by (by eapply type_of_lt).
  assert (Hto1 : type_of outer h1 = (Done to, h1)).
  { apply (Houter (fun g => type_of outer g = (Done to, g))); [done|].
    intros g l. apply type_of_app. }
  assert (Hn1 : <[n := o1]> h1 !! n = Some o1)
    by (by apply list_lookup_insert_eq).
  destruct (collection_of_loop_cons n o1 ([] ++ [inner']) outer to []
              (<[n := o1]> h1) Hn1)
    as (outer' & o2 & h2 & Hstep2 & Hty2 & Hl2 & Hf2 & Hu2 & _); try done.
  { by rewrite Hty1. }
  { by apply type_of_insert_ne. }
  { intros _. right. by left. }
  { by rewrite Hsub. }
  destruct (Hu2 Hsub) as [-> ->]. rewrite list_insert_insert_eq in Hstep2.
  exists inner', (<[n := o2]> h1).
  assert (Hn2 : <[n := o2]> h1 !! n = Some o2)
    by (by apply list_lookup_insert_eq).
  split; [|split; [|split; [|split; [|split; [|split]]]]].
  - unfold chain_of, collection_of.
    rewrite (mbind_done _ _ _ _ _ (MiddlewareChain_new_spec h)).
    unfold mbind, M_bind, bind. fold n h0.
    rewrite Hstep1, Hstep2. reflexivity.
  - by apply lookup_ge_None.
  - rewrite (type_of_ref _ _ _ Hn2). by rewrite Hty2, Hty1.
  - by apply (get_list_ref _ _ _ _ Hn2).
  - intros Hs. by destruct (Hu1 Hs).
  - intros Hs. destruct (Hw1 Hs) as [-> ->]. rewrite Hlen0. split; [done|].
    rewrite list_lookup_insert_ne by lia.
    rewrite <- Hlen0. by apply list_lookup_middle.
  - intros b Hb. rewrite list_lookup_insert_ne by (unfold n; lia).
    by apply Hframe1.
Qed.

Lemma issubclass_chain_collection c :
  issubclass c TyMiddlewareChain = true ->
  issubclass c TyMiddlewareCollection = true.
Proof.
  unfold issubclass. rewrite !bool_decide_eq_true.
  induction c; try (by vm_compute; intros H; repeat
    (apply elem_of_cons in H as [H|H]; [discriminate|]); try done;
    apply elem_of_nil in H).
  - intros _. set_solver.
  - cbn [mro]. rewrite !elem_of_cons. intros [H|H]; [discriminate|].
    right. by apply IHc.
Qed.

(** [chain_of([inner, outer])] when [inner] cannot become the first
    member of the new chain. *)
Lemma chain_of_pair_raises inner outer ti (h : Heap) :
  type_of inner h = (Done ti, h) ->
  (issubclass ti TyMiddleware = false -> iscoroutinefunction inner = false ->
   exists h',
     chain_of [inner; outer] h = (Raised (ValueError "Not a coroutine"), h') /\
     (forall b, b < length h -> h' !! b = h !! b)) /\
  (issubclass ti TyMiddleware = true ->
   getattr inner "fn" h = (Raised (AttributeError "fn"), h) ->
   exists h',
     chain_of [inner; outer] h = (Raised (AttributeError "fn"), h') /\
     (forall b, b < length h -> h' !! b = h !! b)).
Proof.
  intros Hti.
  set (n := length h). set (h0 := h ++ [empty_collection TyMiddlewareChain]).
  assert (Hn0 : h0 !! n = Some (empty_collection TyMiddlewareChain))
    by (by apply list_lookup_middle).
  assert (Hti0 : type_of inner h0 = (Done ti, h0)) by (by apply type_of_app).
  assert (Hstart : forall r h',
    collection_of_loop (VRef n) [inner; outer] h0 = (Raised r, h') ->
    chain_of [inner; outer] h = (Raised r, h')).
  { intros r h' Hloop. unfold chain_of, collection_of.
    rewrite (mbind_done _ _ _ _ _ (MiddlewareChain_new_spec h)).
    fold n h0. by apply mbind_raised. }
  split.
  - intros Hsub Hco. exists (h0 ++ [adapter VNone]). split.
    + apply Hstart. cbn [collection_of_loop].
      rewrite (mbind_done _ _ _ _ _
                 (isinstance_spec _ _ TyMiddleware _ Hti0)), Hsub.
      cbn [negb]. apply mbind_raised.
      by apply MiddlewareFunction_new_not_coroutine.
    + intros b Hb. unfold h0. rewrite !lookup_app_l; [done|done|].
      rewrite length_app. unfold n in Hb. lia.
  - intros Hsub Hfn. eexists. split.
    + apply Hstart. cbn [collection_of_loop].
      rewrite (mbind_done _ _ _ _ _
                 (isinstance_spec _ _ TyMiddleware _ Hti0)), Hsub.
      cbn [negb]. rewrite mbind_ret. apply mbind_raised.
      eapply (add_middleware_no_fn n _ inner ti); try done.
      by eapply getattr_app_any.
    + intros b Hb. rewrite list_lookup_insert_ne by (unfold n; lia).
      unfold h0. by rewrite lookup_app_l.
Qed.

(** C9, as the code has it: [middleware(outer)] wraps [outer] in an
    adapter unless it is a middleware already, which raises [ValueError]
    when [outer] is not a coroutine function, and returns the decorator.
    Applied to a chain, the decorator appends [outer] to it and returns
    that same chain.  Applied to another target that is a middleware or
    a coroutine function, it returns a new chain whose sequence is the
    target (wrapped in an adapter unless it is a middleware already)
    followed by [outer]; on a target that is neither, the adapter's
    constructor raises [ValueError].  A middleware without the attribute
    [fn] that becomes the first member of a chain makes the call raise
    [AttributeError]. *)
Theorem middleware_decorator :
  (forall outer t (h : Heap),
     type_of outer h = (Done t, h) ->
     (issubclass t TyMiddleware = true ->
      middleware outer h = (Done (decorator outer), h)) /\
     (issubclass t TyMiddleware = false ->
      iscoroutinefunction outer = true ->
      middleware outer h =
        (Done (decorator (VRef (length h))), h ++ [adapter outer]) /\
      is_unit (h ++ [adapter outer]) (VRef (length h))) /\
     (issubclass t TyMiddleware = false ->
      iscoroutinefunction outer = false ->
      middleware outer h =
        (Raised (ValueError "Not a coroutine"), h ++ [adapter VNone]))) /\
  (forall outer a o l (h : Heap),
     is_unit h outer ->
     h !! a = Some o ->
     issubclass (ob_type o) TyMiddlewareChain = true ->
     ob_attrs o !! "collection" = Some (AList l) ->
     (l <> [] \/ (exists fo, getattr outer "fn" h = (Done fo, h)) ->
      exists h',
        decorator outer (VRef a) h = (Done (VRef a), h') /\
        appended a l outer h h' /\
        type_of (VRef a) h' = (Done (ob_type o), h')) /\
     (l = [] ->
      getattr outer "fn" h = (Raised (AttributeError "fn"), h) ->
      exists h',
        decorator outer (VRef a) h = (Raised (AttributeError "fn"), h') /\
        appended a l outer h h')) /\
  (forall outer inner ti (h : Heap),
     is_unit h outer ->
     type_of inner h = (Done ti, h) ->
     issubclass ti TyMiddlewareChain = false ->
     (coercible h inner ->
      exists inner' h',
        decorator outer inner h = (Done (VRef (length h)), h') /\
        h !! length h = None /\
        type_of (VRef (length h)) h' = (Done TyMiddlewareChain, h') /\
        get_list (VRef (length h)) "collection" h'
          = (Done [inner'; outer], h') /\
        (issubclass ti TyMiddleware = true -> inner' = inner) /\
        (issubclass ti TyMiddleware = false ->
         inner' = VRef (S (length h)) /\
         h' !! S (length h) = Some (adapter inner)) /\
        (forall b, b < length h -> h' !! b = h !! b)) /\
     (issubclass ti TyMiddleware = false ->
      iscoroutinefunction inner = false ->
      exists h',
        decorator outer inner h
          = (Raised (ValueError "Not a coroutine"), h') /\
        (forall b, b < length h -> h' !! b = h !! b)) /\
     (issubclass ti TyMiddleware = true ->
      getattr inner "fn" h = (Raised (AttributeError "fn"), h) ->
      exists h',
        decorator outer inner h = (Raised (AttributeError "fn"), h') /\
        (forall b, b < length h -> h' !! b = h !! b))).
Proof.
  split; [|split].
  - intros outer t h Ht. unfold middleware.
    rewrite (mbind_done _ _ _ _ _ (isinstance_spec _ _ TyMiddleware _ Ht)).
    split; [|split].
    + by intros ->.
    + intros -> Hco. cbn [negb]. unfold as_middleware.
      rewrite (mbind_done _ _ _ _ _
                 (MiddlewareFunction_new_coroutine _ _ Hco)).
      split; [done|]. apply is_unit_type. exists TyMiddlewareFunction.
      split; [|done]. unfold type_of. by rewrite list_lookup_middle.
    + intros -> Hco. cbn [negb]. unfold as_middleware. apply mbind_raised.
      by apply MiddlewareFunction_new_not_coroutine.
  - intros outer a o l h (to & Hto & Hsub)%is_unit_type Ha Hcls Hl.
    pose proof (type_of_ref _ _ _ Ha) as Hta.
    assert (Hdec : decorator outer (VRef a) h =
      (add_middleware (VRef a) outer;; ret (VRef a)) h).
    { unfold decorator.
      by rewrite (mbind_done _ _ _ _ _
                    (isinstance_spec _ _ TyMiddlewareChain _ Hta)), Hcls. }
    rewrite Hdec. split.
    + intros Hcase.
      destruct (add_middleware_unit_gen _ _ _ _ _ _ Ha
                  (issubclass_chain_collection _ Hcls) Hl Hto Hsub)
        as (o' & Hadd & Hty & Hl' & _); [by right|].
      assert (Ha' : <[a := o']> h !! a = Some o').
      { apply list_lookup_insert_eq. by eapply lookup_lt_Some. }
      exists (<[a := o']> h). rewrite (mbind_done _ _ _ _ _ Hadd).
      split; [done|]. split; [by eapply appended_insert|].
      by rewrite (type_of_ref _ _ _ Ha'), Hty.
    + intros -> Hfn. eexists. split.
      * apply mbind_raised. by eapply add_middleware_no_fn.
      * eapply appended_insert; [done|]. cbn [ob_attrs app].
        by rewrite lookup_insert_eq.
  - intros outer inner ti h (to & Hto & Hsub)%is_unit_type Hti Hnc.
    assert (Hdec : decorator outer inner h = chain_of [inner; outer] h).
    { unfold decorator.
      by rewrite (mbind_done _ _ _ _ _
                    (isinstance_spec _ _ TyMiddlewareChain _ Hti)), Hnc. }
    rewrite Hdec. split; [|by apply chain_of_pair_raises].
    intros (t & Ht & Hfi & Hco).
    assert (t = ti) as -> by congruence.
    by eapply chain_of_pair.
Qed.

Lemma middleware_decorator_witness :
  exists h',
    decorator (VRef 0) (VFunc true "A") decorator_fixture
      = (Done (VRef 1), h') /\
    get_list (VRef 1) "collection" h' = (Done [VRef 2; VRef 0], h') /\
    h' !! 2 = Some (adapter (VFunc true "A")).
Proof.
  destruct (proj2 (proj2 middleware_decorator) (VRef 0) (VFunc true "A")
              TyFunction decorator_fixture)
    as (Hnew & _); try reflexivity.
  destruct Hnew as (inner' & h' & Hrun & _ & _ & Hl & _ & Hw & _).
  { exists TyFunction. split; [reflexivity|].
    split; [discriminate | reflexivity]. }
  destruct (Hw eq_refl) as [-> Hadapter].
  exists h'. by repeat split.
Defined.

(** C9, the claim as stated fails: on a function that is not a coroutine
    function, [middleware] raises [ValueError] instead of coercing it,
    and a decorator raises [ValueError] instead of building a chain, as
    it does on a number; the decorator of a middleware without [fn]
    raises [AttributeError] on an empty chain. *)
Lemma middleware_decorator_raises :
  let h := decorator_fixture in
  (middleware (VFunc false "handler") h).1 =
    Raised (ValueError "Not a coroutine") /\
  isinstance (VRef 0) TyMiddleware h = (Done true, h) /\
  isinstance (VFunc false "handler") TyMiddlewareChain h = (Done false, h) /\
  (decorator (VRef 0) (VFunc false "handler") h).1 =
    Raised (ValueError "Not a coroutine") /\
  (decorator (VRef 0) (VInt 3) h).1 = Raised (ValueError "Not a coroutine") /\
  isinstance (VRef 2) TyMiddleware bare_fixture = (Done true, bare_fixture) /\
  isinstance (VRef 1) TyMiddlewareChain bare_fixture
    = (Done true, bare_fixture) /\
  (decorator (VRef 2) (VRef 1) bare_fixture).1 = Raised (AttributeError "fn").
Proof. by vm_compute. Qed.

(** * Further properties *)

(** ** Calls and the sequential chain *)

Section Calls.
Variable code : FnId -> Caller -> Callee.
Variable user_run : string -> option (Caller -> Value -> Callee).

(** X1: calling a middleware object is running it
    ([Middleware.__call__], lines 123-127). *)
Theorem Middleware_call_is_run fuel a o args ctx next kwargs h :
  h !! a = Some o ->
  issubclass (ob_type o) TyMiddleware = true ->
  free_kwargs kwargs ->
  call code user_run (S fuel) (VRef a) args (run_kw ctx next kwargs) h =
    run code user_run fuel (VRef a) args (run_kw ctx next kwargs) h.
Proof.
  intros Ha Hsub Hk. cbn [call].
  rewrite (mbind_done _ _ _ _ _
             (isinstance_spec _ _ TyMiddleware _ (type_of_ref _ _ _ Ha))).
  rewrite Hsub. cbn [negb].
  rewrite (mbind_done _ _ _ _ _ (bind_signature_run_kw _ _ _ _ Hk)).
  destruct Hk as (_ & Hc & Hn).
  by rewrite (mbind_done _ _ _ _ _ (keywords_ctx_next _ _ _ _ Hc Hn)).
Qed.

(** X2: the adapter that [as_middleware(fn)] creates runs as the call of
    [fn] with the same positional and keyword arguments, [ctx] and [next]
    included ([MiddlewareFunction.run], lines 156-160). *)
Theorem as_middleware_run fuel fn args ctx next kwargs (h : Heap) :
  iscoroutinefunction fn = true ->
  free_kwargs kwargs ->
  exists u h',
    as_middleware fn h = (Done u, h') /\
    run code user_run (S fuel) u args (run_kw ctx next kwargs) h' =
      call code user_run fuel fn args (run_kw ctx next kwargs) h'.
Proof.
  intros Hco Hk. exists (VRef (length h)), (h ++ [adapter fn]).
  split; [by apply MiddlewareFunction_new_coroutine|].
  assert (Ha : (h ++ [adapter fn]) !! length h = Some (adapter fn))
    by (by apply list_lookup_middle).
  rewrite (run_resolved _ _ _ _ _ RunFunction _ _ _ _ _ Ha) by done.
  unfold MiddlewareFunction_run.
  rewrite (mbind_done _ _ _ _ _
             (get_value_ref _ _ _ "fn" fn Ha (lookup_insert_eq _ _ _))).
  destruct Hk as (_ & Hc & Hn).
  by rewrite (mbind_done _ _ _ _ _ (keywords_ctx_next _ _ _ _ Hc Hn)).
Qed.

(** X3: [ctx] and [next] are keyword-only parameters of [run] without
    default (line 81 and the [run] of every class): a run without one of
    them raises [TypeError] before anything else happens. *)
Theorem run_requires_ctx_and_next fuel a o m args kw h :
  h !! a = Some o ->
  resolve_run user_run (ob_type o) = Some m ->
  (forall name, m <> RunUser name) ->
  kw !! "ctx" = None \/ kw !! "next" = None ->
  exists msg,
    run code user_run (S fuel) (VRef a) args kw h = (Raised (TypeError msg), h).
Proof.
  intros Ha Hm Hu Hkw. cbn [run].
  rewrite (mbind_done _ _ _ _ _ (type_of_ref _ _ _ Ha)), Hm.
  assert (Hb : exists msg,
    bind_signature kw h = (Raised (TypeError msg), h)).
  { unfold bind_signature. destruct (kw !! "self"); [by eexists|].
    destruct Hkw as [-> | ->]; [by eexists|].
    destruct (kw !! "ctx"); by eexists. }
  destruct Hb as [msg Hb]. exists msg.
  destruct m; try (by rewrite (mbind_raised _ _ _ _ _ Hb)).
  by destruct (Hu name).
Qed.

(** X15: a chain enters the member added last, with the fold of the
    members added before it as continuation; a chain of one member runs
    that member with the terminal [next] ([MiddlewareChain.run], lines
    313-323). *)
Theorem MiddlewareChain_run_last fuel a o l last args ctx next kwargs h :
  h !! a = Some o ->
  resolve_run user_run (ob_type o) = Some RunChain ->
  ob_attrs o !! "collection" = Some (AList (l ++ [last])) ->
  free_kwargs kwargs ->
  run code user_run (S (S fuel)) (VRef a) args (run_kw ctx next kwargs) h =
    run code user_run fuel last args
      (run_kw ctx (foldl (fun next current => VLambda current next) next l)
         kwargs) h.
Proof.
  intros Ha Hm Hl Hk.
  rewrite (run_chain_fold _ _ _ _ _ _ _ _ _ _ _ Ha Hm Hl Hk).
  rewrite foldl_app. cbn [foldl].
  destruct Hk as (_ & Hc & Hn). by apply call_lambda.
Qed.
End Calls.

Lemma Middleware_call_is_run_witness :
  let code := fixture_code VNone in
  let h := group_fixture TyOneOfAll ["M1"; "M2"; "M3"] in
  let kw := run_kw (VRef 0) (VFunc true "T") ∅ in
  call code no_user_run 4 (VRef 1) [] kw h = run code no_user_run 3 (VRef 1) [] kw h.
Proof.
  intros code h kw.
  eapply (Middleware_call_is_run code no_user_run 3 1).
  - reflexivity.
  - reflexivity.
  - by vm_compute.
Defined.

Lemma as_middleware_run_witness :
  let code := fixture_code VNone in
  let kw := run_kw VNone (VFunc true "T") ∅ in
  exists u h',
    as_middleware (VFunc true "M2") [] = (Done u, h') /\
    run code no_user_run 2 u [] kw h' =
      call code no_user_run 1 (VFunc true "M2") [] kw h'.
Proof.
  intros code kw.
  apply (as_middleware_run code no_user_run 1 (VFunc true "M2")).
  - reflexivity.
  - by vm_compute.
Defined.

Lemma run_requires_ctx_and_next_witness :
  exists msg,
    run (fixture_code VNone) no_user_run 3 (VRef 1) []
      {["next" := VFunc true "T"]} (group_fixture TyAllOfAll ["M1"])
    = (Raised (TypeError msg), group_fixture TyAllOfAll ["M1"]).
Proof.
  eapply (run_requires_ctx_and_next (fixture_code VNone) no_user_run 2 1).
  - reflexivity.
  - reflexivity.
  - discriminate.
  - left. reflexivity.
Defined.

Lemma MiddlewareChain_run_last_witness :
  let code := fixture_code (VStr "T") in
  let h := (chain_test 0 (VStr "T") [] []).2 in
  run code no_user_run 9 (VRef 1) [] (run_kw (VRef 0) (VFunc true "T") ∅) h =
    run code no_user_run 7 (VRef 3) []
      (run_kw (VRef 0) (VLambda (VRef 2) (VFunc true "T")) ∅) h.
Proof.
  intros code h.
  eapply (MiddlewareChain_run_last code no_user_run 7 1 _ [VRef 2] (VRef 3)).
  - reflexivity.
  - reflexivity.
  - reflexivity.
  - by vm_compute.
Defined.

(** ** The state store *)

(** X4: [_ensure_context] (lines 233-237) creates an empty store when
    [ctx.states] is missing or [None], leaves the context as it is
    otherwise, and changes nothing when it runs a second time. *)
Theorem ensure_context_idempotent c oc (h : Heap) :
  h !! c = Some oc ->
  (ob_attrs oc !! "states" = None \/
   ob_attrs oc !! "states" = Some (AVal VNone) ->
   MiddlewareState__ensure_context (VRef c) h =
     (Done tt,
      <[c := mkObject (ob_type oc)
               (<["states" := ADict ∅]> (ob_attrs oc))]> h)) /\
  (forall x, ob_attrs oc !! "states" = Some x -> x <> AVal VNone ->
   MiddlewareState__ensure_context (VRef c) h = (Done tt, h)) /\
  (exists h1,
     MiddlewareState__ensure_context (VRef c) h = (Done tt, h1) /\
     MiddlewareState__ensure_context (VRef c) h1 = (Done tt, h1)).
Proof.
  intros Hc.
  assert (Hlt : c < length h) by (by eapply lookup_lt_Some).
  assert (Hkeep : forall g o x,
    g !! c = Some o -> ob_attrs o !! "states" = Some x -> x <> AVal VNone ->
    MiddlewareState__ensure_context (VRef c) g = (Done tt, g)).
  { intros g o x Hg Hs Hx. unfold MiddlewareState__ensure_context.
    assert (Hget : getattr_default (VRef c) "states" (AVal VNone) g
                   = (Done x, g)).
    { unfold getattr_default. by rewrite (getattr_ref _ _ _ _ _ Hg Hs). }
    rewrite (mbind_done _ _ _ _ _ Hget).
    by destruct x as [[]| |]. }
  assert (Hmake :
    ob_attrs oc !! "states" = None \/
    ob_attrs oc !! "states" = Some (AVal VNone) ->
    MiddlewareState__ensure_context (VRef c) h =
      (Done tt,
       <[c := mkObject (ob_type oc)
                (<["states" := ADict ∅]> (ob_attrs oc))]> h)).
  { intros Hs. unfold MiddlewareState__ensure_context.
    assert (Hget : getattr_default (VRef c) "states" (AVal VNone) h
                   = (Done (AVal VNone), h)).
    { unfold getattr_default, getattr. rewrite Hc.
      by destruct Hs as [-> | ->]. }
    rewrite (mbind_done _ _ _ _ _ Hget).
    by rewrite (setattr_ref _ _ _ _ _ Hc). }
  split; [done|]. split; [by eauto|].
  destruct (ob_attrs oc !! "states") as [x|] eqn:Hs.
  - assert (Hx : x = AVal VNone \/ x <> AVal VNone).
    { destruct x as [[]| |]; (by left) || (by right). }
    destruct Hx as [->|Hx].
    + eexists. split; [by apply Hmake; right|].
      eapply (Hkeep _ _ (ADict ∅)); [by apply list_lookup_insert_eq| |done].
      cbn [ob_attrs]. by rewrite lookup_insert_eq.
    + exists h. split; by eapply Hkeep.
  - eexists. split; [by apply Hmake; left|].
    eapply (Hkeep _ _ (ADict ∅)); [by apply list_lookup_insert_eq| |done].
    cbn [ob_attrs]. by rewrite lookup_insert_eq.
Qed.

Lemma ensure_context_idempotent_witness :
  let h := injector_fixture (VInt 7) VNone in
  exists h1,
    MiddlewareState__ensure_context (VRef 0) h = (Done tt, h1) /\
    MiddlewareState__ensure_context (VRef 0) h1 = (Done tt, h1).
Proof.
  intros h.
  refine (proj2 (proj2 (ensure_context_idempotent 0
            (mkObject TyObject {["log" := AList []]}) h _))).
  reflexivity.
Defined.

(** X5: [get_state] (lines 221-225) returns what the store holds under
    the class asked for, and [None] when it holds nothing there; it
    creates the store when the context has none and changes nothing
    else. *)
Theorem get_state_lookup c oc d ty (h : Heap) :
  h !! c = Some oc ->
  states_of oc = Some d ->
  exists h',
    MiddlewareState_get_state (VRef c) ty h
      = (Done (default VNone (d !! ty)), h') /\
    (ob_attrs oc !! "states" = Some (ADict d) -> h' = h) /\
    h' !! c = Some (mkObject (ob_type oc)
                      (<["states" := ADict d]> (ob_attrs oc))) /\
    length h' = length h /\
    (forall b, b <> c -> h' !! b = h !! b).
Proof.
  intros Hc Hd.
  destruct (ensure_context_spec _ _ _ _ Hc Hd) as (h' & He & Hc' & Hh').
  exists h'. split; [|split; [|split; [done|split]]].
  - unfold MiddlewareState_get_state.
    rewrite (mbind_done _ _ _ _ _ He).
    by rewrite (mbind_done _ _ _ _ _
         (getattr_ref _ _ _ "states" _ Hc' (lookup_insert_eq _ _ _))).
  - intros Hs. rewrite <- Hh'. apply list_insert_id. rewrite Hc. f_equal.
    destruct oc as [t attrs]. cbn in *. f_equal. by rewrite insert_id.
  - rewrite <- Hh'. by rewrite length_insert.
  - intros b Hb. rewrite <- Hh'. by rewrite list_lookup_insert_ne.
Qed.

Lemma get_state_lookup_witness :
  let h := injector_fixture (VInt 7) VNone in
  exists h',
    MiddlewareState_get_state (VRef 0) TyInt h = (Done VNone, h') /\
    length h' = length h.
Proof.
  intros h.
  destruct (get_state_lookup 0 (mkObject TyObject {["log" := AList []]})
              ∅ TyInt h) as (h' & Hget & _ & _ & Hlen & _).
  - reflexivity.
  - reflexivity.
  - by exists h'.
Defined.

(** X6: [set_state] then [get_state] (lines 221-231): the state comes
    back under its own class, what the store holds under every other
    class is unchanged, a second state of the same class replaces the
    first, and no other object of the heap is touched. *)
Theorem set_state_get_state c oc d s1 t1 (h : Heap) :
  h !! c = Some oc ->
  states_of oc = Some d ->
  type_of s1 h = (Done t1, h) ->
  exists h1,
    MiddlewareState_set_state (VRef c) s1 h = (Done tt, h1) /\
    MiddlewareState_get_state (VRef c) t1 h1 = (Done s1, h1) /\
    (forall t, t <> t1 ->
       MiddlewareState_get_state (VRef c) t h1
         = (Done (default VNone (d !! t)), h1)) /\
    (forall s2, type_of s2 h = (Done t1, h) ->
       exists h2,
         MiddlewareState_set_state (VRef c) s2 h1 = (Done tt, h2) /\
         MiddlewareState_get_state (VRef c) t1 h2 = (Done s2, h2)) /\
    length h1 = length h /\
    (forall b, b <> c -> h1 !! b = h !! b).
Proof.
  intros Hc Hd Ht.
  assert (Hlt : c < length h) by (by eapply lookup_lt_Some).
  set (o1 := mkObject (ob_type oc)
               (<["states" := ADict (<[t1 := s1]> d)]> (ob_attrs oc))).
  assert (Hc1 : store_state c oc d t1 s1 h !! c = Some o1)
    by (by apply list_lookup_insert_eq).
  assert (Hd1 : states_of o1 = Some (<[t1 := s1]> d)).
  { unfold states_of, o1. cbn [ob_attrs]. by rewrite lookup_insert_eq. }
  assert (Hs1 : ob_attrs o1 !! "states" = Some (ADict (<[t1 := s1]> d))).
  { unfold o1. cbn [ob_attrs]. by rewrite lookup_insert_eq. }
  exists (store_state c oc d t1 s1 h).
  split; [by apply set_state_spec|].
  split; [by apply get_state_stored|].
  split; [|split; [|split]].
  - intros t Hne.
    destruct (get_state_lookup _ _ _ t _ Hc1 Hd1)
      as (h' & Hget & Hsame & _).
    rewrite (Hsame Hs1) in Hget. rewrite Hget.
    by rewrite lookup_insert_ne.
  - intros s2 Ht2. eexists. split.
    + apply (set_state_spec _ _ _ _ t1 _ Hc1 Hd1).
      by eapply type_of_insert.
    + by apply get_state_stored.
  - unfold store_state. by rewrite length_insert.
  - intros b Hb. unfold store_state. by rewrite list_lookup_insert_ne.
Qed.

Lemma set_state_get_state_witness :
  let h := injector_fixture (VInt 7) VNone in
  exists h1,
    MiddlewareState_set_state (VRef 0) (VStr "a") h = (Done tt, h1) /\
    MiddlewareState_get_state (VRef 0) TyStr h1 = (Done (VStr "a"), h1).
Proof.
  intros h.
  destruct (set_state_get_state 0 (mkObject TyObject {["log" := AList []]})
              ∅ (VStr "a") TyStr h) as (h1 & Hset & Hget & _).
  - reflexivity.
  - reflexivity.
  - reflexivity.
  - by exists h1.
Defined.

(** X7: a context that cannot hold attributes ([None], a number, a
    string, a tuple) makes [set_state] and [get_state] raise
    [AttributeError] at [ctx.states = dict()] (line 237). *)
Theorem set_state_needs_object ctx state ty (h : Heap) :
  ctx = VNone \/ (exists z, ctx = VInt z) \/ (exists s, ctx = VStr s) \/
    (exists vs, ctx = VTuple vs) ->
  MiddlewareState_set_state ctx state h
    = (Raised (AttributeError "states"), h) /\
  MiddlewareState_get_state ctx ty h
    = (Raised (AttributeError "states"), h).
Proof.
  by intros [-> | [[z ->] | [[s ->] | [vs ->]]]].
Qed.

Lemma set_state_needs_object_witness :
  MiddlewareState_set_state VNone (VInt 7) []
    = (Raised (AttributeError "states"), []) /\
  MiddlewareState_get_state VNone TyInt []
    = (Raised (AttributeError "states"), []).
Proof.
  apply (set_state_needs_object VNone (VInt 7) TyInt []). by left.
Defined.

(** ** Collections *)

Lemma is_unit_insert v a o o' (h : Heap) :
  h !! a = Some o -> ob_type o' = ob_type o ->
  is_unit h v -> is_unit (<[a := o']> h) v.
Proof.
  intros Ha Hty. rewrite !is_unit_type. intros (t & Ht & Hs).
  exists t. split; [|done]. by eapply type_of_insert.
Qed.

(** X8: the bookkeeping of [add_middleware] (lines 305-311): the first
    member added to a chain gives the chain its [fn]; a member added to
    a chain that has members, or to a collection of another kind, leaves
    [fn] as it was. *)
Theorem add_middleware_fn a o l mw t fn (h : Heap) :
  h !! a = Some o ->
  issubclass (ob_type o) TyMiddlewareCollection = true ->
  ob_attrs o !! "collection" = Some (AList l) ->
  type_of mw h = (Done t, h) ->
  issubclass t TyMiddleware = true ->
  getattr mw "fn" h = (Done fn, h) ->
  exists h',
    add_middleware (VRef a) mw h = (Done mw, h') /\
    (issubclass (ob_type o) TyMiddlewareChain = true -> l = [] ->
     getattr (VRef a) "fn" h' = (Done fn, h')) /\
    (issubclass (ob_type o) TyMiddlewareChain = false \/ l <> [] ->
     forall x, getattr (VRef a) "fn" h = (Done x, h) ->
               getattr (VRef a) "fn" h' = (Done x, h')).
Proof.
  intros Ha Hcls Hl Ht Hsub Hfn.
  assert (Hlt : a < length h) by (by eapply lookup_lt_Some).
  assert (Hold : forall x, getattr (VRef a) "fn" h = (Done x, h) ->
                 ob_attrs o !! "fn" = Some x).
  { intros x. unfold getattr. rewrite Ha.
    by destruct (ob_attrs o !! "fn"); intros [= <-]. }
  unfold add_middleware.
  rewrite (mbind_done _ _ _ _ _ (type_of_ref _ _ _ Ha)), Hcls.
  destruct (issubclass (ob_type o) TyMiddlewareChain) eqn:Hchain.
  - exists (<[a := chain_added o l mw fn]> h).
    split; [by eapply MiddlewareChain_add_middleware_spec|].
    assert (Ha' : <[a := chain_added o l mw fn]> h !! a
                  = Some (chain_added o l mw fn))
      by (by apply list_lookup_insert_eq).
    split.
    + intros _ ->. apply (getattr_ref _ _ _ _ _ Ha').
      unfold chain_added. cbn [ob_attrs].
      rewrite bool_decide_eq_true_2 by done. by rewrite lookup_insert_eq.
    + intros [? | Hne] x Hx; [done|].
      apply (getattr_ref _ _ _ _ _ Ha').
      unfold chain_added. cbn [ob_attrs].
      rewrite bool_decide_eq_false_2 by done.
      rewrite lookup_insert_ne by done. by apply Hold.
  - eexists. split.
    + rewrite (MiddlewareCollection_add_middleware_spec _ _ _ _ _ _ Ha Hl Ht).
      by rewrite Hsub.
    + split; [done|]. intros _ x Hx.
      eapply getattr_ref; [by apply list_lookup_insert_eq|].
      cbn [ob_attrs]. rewrite lookup_insert_ne by done. by apply Hold.
Qed.

Lemma add_middleware_fn_witness :
  exists h',
    add_middleware (VRef 1) (VRef 2) add_fixture = (Done (VRef 2), h') /\
    getattr (VRef 1) "fn" h' = (Done (AVal (VFunc true "A")), h').
Proof.
  destruct (add_middleware_fn 1
    (mkObject TyMiddlewareChain
       {["fn" := AVal VNone; "collection" := AList []]})
    [] (VRef 2) TyMiddlewareFunction (AVal (VFunc true "A")) add_fixture)
    as (h' & Hadd & Hfirst & _); try reflexivity.
  exists h'. split; [done|]. by apply Hfirst.
Defined.

Lemma MiddlewareCollection_add_middleware_outcomes a o l mw r (h h' : Heap) :
  h !! a = Some o ->
  ob_attrs o !! "collection" = Some (AList l) ->
  MiddlewareCollection_add_middleware (VRef a) mw h = (r, h') ->
  (h' = h /\ exists e, r = Raised e) \/
  (is_unit h mw /\ r = Done mw /\
   h' = <[a := mkObject (ob_type o)
                  (<["collection" := AList (l ++ [mw])]> (ob_attrs o))]> h).
Proof.
  intros Ha Hl. destruct (type_of_cases mw h) as [[t Ht] | Ht].
  - rewrite (MiddlewareCollection_add_middleware_spec _ _ _ _ _ _ Ha Hl Ht).
    destruct (issubclass t TyMiddleware) eqn:Hs; intros [= <- <-].
    + right. split; [|done]. apply is_unit_type. by exists t.
    + left. split; [done|]. by eexists.
  - unfold MiddlewareCollection_add_middleware, isinstance.
    rewrite (mbind_raised _ _ _ _ _ (mbind_raised _ _ _ _ _ Ht)).
    intros [= <- <-]. left. split; [done|]. by eexists.
Qed.

(** X11: whatever [add_middleware] does (lines 259-283 and 305-311) --
    return, raise [ValueError], or fail while reading [middleware.fn] --
    the collection keeps its class, its sequence is the old one or the
    old one followed by the new middleware, no object is created, and a
    sequence of middleware stays a sequence of middleware. *)
Theorem add_middleware_keeps_units a o l mw r (h h' : Heap) :
  h !! a = Some o ->
  issubclass (ob_type o) TyMiddlewareCollection = true ->
  ob_attrs o !! "collection" = Some (AList l) ->
  Forall (is_unit h) l ->
  add_middleware (VRef a) mw h = (r, h') ->
  exists o' l',
    h' !! a = Some o' /\
    ob_type o' = ob_type o /\
    ob_attrs o' !! "collection" = Some (AList l') /\
    (l' = l \/ l' = l ++ [mw] /\ is_unit h mw) /\
    Forall (is_unit h') l' /\
    length h' = length h.
Proof.
  intros Ha Hcls Hl Hunits Hadd.
  assert (Hlt : a < length h) by (by eapply lookup_lt_Some).
  set (o1 := mkObject (ob_type o)
               (<["collection" := AList (l ++ [mw])]> (ob_attrs o))).
  assert (Hshape : exists o' l',
    h' = <[a := o']> h /\ ob_type o' = ob_type o /\
    ob_attrs o' !! "collection" = Some (AList l') /\
    (l' = l \/ l' = l ++ [mw] /\ is_unit h mw)).
  { assert (Hsame : forall g, g = h -> exists o' l',
      g = <[a := o']> h /\ ob_type o' = ob_type o /\
      ob_attrs o' !! "collection" = Some (AList l') /\
      (l' = l \/ l' = l ++ [mw] /\ is_unit h mw)).
    { intros g ->. exists o, l. split; [by rewrite list_insert_id|]. auto. }
    assert (Hone : forall g, is_unit h mw -> g = <[a := o1]> h ->
      exists o' l',
      g = <[a := o']> h /\ ob_type o' = ob_type o /\
      ob_attrs o' !! "collection" = Some (AList l') /\
      (l' = l \/ l' = l ++ [mw] /\ is_unit h mw)).
    { intros g Hu ->. exists o1, (l ++ [mw]). split; [done|].
      split; [done|]. split; [|by right].
      unfold o1. cbn [ob_attrs]. by rewrite lookup_insert_eq. }
    revert Hadd. unfold add_middleware.
    rewrite (mbind_done _ _ _ _ _ (type_of_ref _ _ _ Ha)), Hcls.
    destruct (issubclass (ob_type o) TyMiddlewareChain).
    - unfold MiddlewareChain_add_middleware.
      destruct (MiddlewareCollection_add_middleware (VRef a) mw h)
        as [r1 h1] eqn:Hbase.
      destruct (MiddlewareCollection_add_middleware_outcomes
                  _ _ _ _ _ _ _ Ha Hl Hbase)
        as [(-> & e & ->) | (Hu & -> & ->)].
      + rewrite (mbind_raised _ _ _ _ _ Hbase). intros [= <- <-]. by apply Hsame.
      + rewrite (mbind_done _ _ _ _ _ Hbase). fold o1.
        assert (Ha1 : <[a := o1]> h !! a = Some o1)
          by (by apply list_lookup_insert_eq).
        rewrite (mbind_done _ _ _ _ _
          (get_list_ref _ _ _ (l ++ [mw]) Ha1 (lookup_insert_eq _ _ _))).
        case_bool_decide as Hlen.
        * destruct (getattr_cases mw "fn" (<[a := o1]> h))
            as [[x Hx] | [e He]].
          -- rewrite mbind_assoc, (mbind_done _ _ _ _ _ Hx).
             rewrite (mbind_done _ _ _ _ _ (setattr_ref _ _ _ _ _ Ha1)).
             rewrite list_insert_insert_eq. intros [= <- <-].
             eexists _, (l ++ [mw]). split; [done|]. split; [done|].
             split; [|by right]. cbn [ob_attrs ob_type o1].
             rewrite lookup_insert_ne by done. by rewrite lookup_insert_eq.
          -- rewrite mbind_assoc, (mbind_raised _ _ _ _ _ He).
             intros [= <- <-]. by apply Hone.
        * rewrite mbind_ret. intros [= <- <-]. by apply Hone.
    - intros Hbase.
      destruct (MiddlewareCollection_add_middleware_outcomes
                  _ _ _ _ _ _ _ Ha Hl Hbase)
        as [(-> & e & ->) | (Hu & -> & ->)].
      + by apply Hsame.
      + by apply Hone. }
  destruct Hshape as (o' & l' & -> & Hty & Hl' & Hcase).
  exists o', l'. split; [by apply list_lookup_insert_eq|].
  split; [done|]. split; [done|]. split; [done|].
  split; [|by rewrite length_insert].
  assert (Hall : Forall (is_unit h) l').
  { destruct Hcase as [-> | [-> Hu]]; [done|].
    apply Forall_app. split; [done|]. by constructor. }
  eapply Forall_impl; [exact Hall|].
  intros v Hv. by eapply is_unit_insert.
Qed.

Lemma add_middleware_keeps_units_witness :
  exists o' l',
    (add_middleware (VRef 1) (VRef 2) add_fixture).2 !! 1 = Some o' /\
    ob_attrs o' !! "collection" = Some (AList l') /\
    Forall (is_unit (add_middleware (VRef 1) (VRef 2) add_fixture).2) l'.
Proof.
  destruct (add_middleware_keeps_units 1
    (mkObject TyMiddlewareChain
       {["fn" := AVal VNone; "collection" := AList []]})
    [] (VRef 2) (add_middleware (VRef 1) (VRef 2) add_fixture).1
    add_fixture (add_middleware (VRef 1) (VRef 2) add_fixture).2)
    as (o' & l' & Ho & _ & Hl & _ & Hall & _).
  - reflexivity.
  - reflexivity.
  - reflexivity.
  - constructor.
  - by destruct (add_middleware (VRef 1) (VRef 2) add_fixture).
  - by exists o', l'.
Defined.

(** ** [collection_of] *)

Lemma type_of_agree v t (h0 h : Heap) :
  (forall b, b < length h0 -> h !! b = h0 !! b) ->
  type_of v h0 = (Done t, h0) -> type_of v h = (Done t, h).
Proof.
  intros Hag. destruct v; unfold type_of; try (by intros [= <-]).
  destruct (h0 !! a) as [o|] eqn:Ha; [|discriminate].
  intros [= <-]. rewrite Hag, Ha; [done|]. by eapply lookup_lt_Some.
Qed.

Lemma getattr_agree v name x (h0 h : Heap) :
  (forall b, b < length h0 -> h !! b = h0 !! b) ->
  getattr v name h0 = (Done x, h0) -> getattr v name h = (Done x, h).
Proof.
  intros Hag. destruct v; unfold getattr; try discriminate.
  destruct (h0 !! a) as [o|] eqn:Ha; [|discriminate].
  rewrite Hag, Ha by (by eapply lookup_lt_Some).
  by destruct (ob_attrs o !! name); intros [= <-].
Qed.

Lemma coroutine_not_unit v (h : Heap) :
  iscoroutinefunction v = true -> ~ is_unit h v.
Proof.
  intros Hco (t & Ht & Hsub)%is_unit_type.
  destruct v; try discriminate. simpl in Ht. injection Ht as <-.
  by vm_compute in Hsub.
Qed.

Lemma coerced_adapter_ge (h h' : Heap) items :
  forall lo members j y,
    coerced h h' lo items members ->
    items !! j = Some y -> iscoroutinefunction y = true ->
    exists b, members !! j = Some (VRef b) /\ lo <= b.
Proof.
  induction items as [|item items IH]; intros lo [|member members] j y;
    cbn [coerced]; try done.
  intros [(Hu & -> & Hrest) | (Hco & b & -> & Hlo & _ & Hrest)];
    destruct j as [|j]; cbn [lookup list_lookup].
  - intros [= <-] Hy. by destruct (coroutine_not_unit _ _ Hy Hu).
  - intros Hj Hy. by eapply IH.
  - intros _ _. by exists b.
  - intros Hj Hy. destruct (IH _ _ _ _ Hrest Hj Hy) as (b' & Hb' & Hle).
    exists b'. split; [done|]. lia.
Qed.

Lemma coerced_distinct (h h' : Heap) items :
  forall lo members i j x y,
    coerced h h' lo items members ->
    i < j -> items !! i = Some x -> items !! j = Some y ->
    iscoroutinefunction x = true -> iscoroutinefunction y = true ->
    members !! i <> members !! j.
Proof.
  induction items as [|item items IH]; intros lo [|member members] i j x y;
    cbn [coerced]; try done.
  intros Hcoerced Hlt. destruct j as [|j]; [lia|].
  destruct i as [|i]; cbn [lookup list_lookup].
  - intros [= <-] Hj Hx Hy.
    destruct Hcoerced as [(Hu & _) | (_ & b & -> & _ & _ & Hrest)].
    + by destruct (coroutine_not_unit _ _ Hx Hu).
    + destruct (coerced_adapter_ge _ _ _ _ _ _ _ Hrest Hj Hy)
        as (b' & Hb' & Hle).
      intros Heq.
      assert (Hsame : Some (VRef b) = Some (VRef b'))
        by (etrans; [exact Heq | exact Hb']).
      injection Hsame as ->. lia.
  - intros Hi Hj Hx Hy.
    destruct Hcoerced as [(_ & _ & Hrest) | (_ & b & _ & _ & _ & Hrest)];
      eapply (IH _ _ i j); try done; lia.
Qed.

Lemma collection_of_loop_spec (h0 : Heap) items :
  forall (h : Heap) o l,
    h !! length h0 = Some o ->
    issubclass (ob_type o) TyMiddlewareCollection = true ->
    ob_attrs o !! "collection" = Some (AList l) ->
    is_Some (ob_attrs o !! "fn") ->
    (forall b, b < length h0 -> h !! b = h0 !! b) ->
    Forall (coercible h0) items ->
    exists members o' h',
      collection_of_loop (VRef (length h0)) items h = (Done tt, h') /\
      h' !! length h0 = Some o' /\
      ob_type o' = ob_type o /\
      ob_attrs o' !! "collection" = Some (AList (l ++ members)) /\
      is_Some (ob_attrs o' !! "fn") /\
      coerced h0 h' (length h) items members /\
      (forall b x, b <> length h0 -> h !! b = Some x -> h' !! b = Some x).
Proof.
  set (n := length h0).
  induction items as [|mw rest IH]; intros h o l Hn Hcls Hl Hf Hag Hitems.
  - exists [], o, h. rewrite app_nil_r. repeat split; try done.
  - apply Forall_cons in Hitems as [(t & Ht & Hfn & Hco) Hrest].
    assert (Hlt : n < length h) by (by eapply lookup_lt_Some).
    destruct (collection_of_loop_cons n o l mw t rest h Hn Hcls Hl Hf)
      as (mw' & o1 & h1 & Hstep & Hty1 & Hl1 & Hf1 & Hu1 & Hw1).
    { by eapply type_of_agree. }
    { intros Hs. destruct (Hfn Hs) as [fn Hg]. right. right. exists fn.
      by eapply getattr_agree. }
    { done. }
    assert (Hh1 : n < length h1 /\
                  forall b x, h !! b = Some x -> h1 !! b = Some x).
    { destruct (issubclass t TyMiddleware).
      - destruct (Hu1 eq_refl) as [_ ->]. done.
      - destruct (Hw1 eq_refl) as [_ ->]. split.
        + rewrite length_app. lia.
        + intros b x Hb. by apply lookup_app_l_Some. }
    destruct Hh1 as [Hlt1 Hkeep1].
    assert (Hn1 : <[n := o1]> h1 !! n = Some o1)
      by (by apply list_lookup_insert_eq).
    destruct (IH (<[n := o1]> h1) o1 (l ++ [mw'])) as
      (members & o2 & h' & Hloop & Hn2 & Hty2 & Hl2 & Hf2 & Hall & Hkeep2);
      try done.
    { by rewrite Hty1. }
    { intros b Hb. rewrite list_lookup_insert_ne by (unfold n; lia).
      destruct (lookup_lt_is_Some_2 h0 b Hb) as [x Hx].
      rewrite Hx. apply Hkeep1. by rewrite Hag. }
    rewrite length_insert in Hall.
    exists (mw' :: members), o2, h'. rewrite Hstep.
    split; [done|]. split; [done|]. split; [by rewrite Hty2|].
    split; [by rewrite <- app_assoc in Hl2|]. split; [done|]. split.
    + cbn [coerced].
      destruct (issubclass t TyMiddleware) eqn:Hs.
      * destruct (Hu1 eq_refl) as [-> ->]. left. split; [|done].
        apply is_unit_type. by exists t.
      * destruct (Hw1 eq_refl) as [-> ->]. right. split; [by apply Hco|].
        exists (length h). split; [done|]. split; [done|]. split.
        -- apply Hkeep2; [unfold n in *; lia|].
           rewrite list_lookup_insert_ne by (unfold n in *; lia).
           by apply list_lookup_middle.
        -- rewrite length_app in Hall. cbn [length] in Hall.
           by rewrite Nat.add_1_r in Hall.
    + intros b x Hb Hx. apply Hkeep2; [done|].
      rewrite list_lookup_insert_ne by done. by apply Hkeep1.
Qed.

(** X9: [collection_of] (lines 346-369), for a class that has a [run]
    and the constructor of [MiddlewareCollection], on items that are
    middleware or coroutine functions: it returns a new collection of
    the class asked for, whose sequence has one member per item, in the
    order given: the item itself when it is a middleware, a new adapter
    of it otherwise, the adapters of two items being two objects; the
    objects that existed are untouched. *)
Theorem collection_of_builds cls items (h : Heap) :
  issubclass cls TyMiddlewareCollection = true ->
  is_abstract cls = false ->
  default_constructor cls ->
  Forall (coercible h) items ->
  exists members h',
    collection_of cls items h = (Done (VRef (length h)), h') /\
    h !! length h = None /\
    type_of (VRef (length h)) h' = (Done cls, h') /\
    get_list (VRef (length h)) "collection" h' = (Done members, h') /\
    coerced h h' (S (length h)) items members /\
    (forall i j x y,
       i < j -> items !! i = Some x -> items !! j = Some y ->
       iscoroutinefunction x = true -> iscoroutinefunction y = true ->
       members !! i <> members !! j) /\
    (forall b, b < length h -> h' !! b = h !! b).
Proof.
  intros Hcls Habs Hdef Hitems.
  destruct (collection_of_loop_spec h items
              (h ++ [empty_collection cls]) (empty_collection cls) [])
    as (members & o' & h' & Hloop & Hn & Hty & Hl & _ & Hall & Hkeep);
    try done.
  { by apply list_lookup_middle. }
  { intros b Hb. by apply lookup_app_l. }
  rewrite length_app in Hall. cbn [length] in Hall.
  rewrite Nat.add_1_r in Hall.
  exists members, h'. split; [|split; [|split; [|split; [|split; [|split]]]]].
  - unfold collection_of.
    rewrite (mbind_done _ _ _ _ _
               (MiddlewareCollection_new_spec _ h Hcls Habs Hdef)).
    by rewrite (mbind_done _ _ _ _ _ Hloop).
  - by apply lookup_ge_None.
  - by rewrite (type_of_ref _ _ _ Hn), Hty.
  - by apply (get_list_ref _ _ _ _ Hn).
  - done.
  - intros i j x y. by eapply coerced_distinct.
  - intros b Hb. destruct (lookup_lt_is_Some_2 h b Hb) as [x Hx].
    rewrite Hx. apply Hkeep; [lia|]. by apply lookup_app_l_Some.
Qed.

Lemma collection_of_builds_witness :
  exists members h',
    collection_of TyAllOfAll [VRef 0; VFunc true "A"; VFunc true "A"]
      decorator_fixture = (Done (VRef 1), h') /\
    get_list (VRef 1) "collection" h' = (Done members, h') /\
    members !! 1 <> members !! 2.
Proof.
  destruct (collection_of_builds TyAllOfAll
              [VRef 0; VFunc true "A"; VFunc true "A"] decorator_fixture)
    as (members & h' & Hrun & _ & _ & Hl & _ & Hdistinct & _).
  - reflexivity.
  - reflexivity.
  - by split.
  - repeat constructor.
    + exists TyMiddlewareFunction. split; [reflexivity|].
      split; [by eexists | discriminate].
    + exists TyFunction. split; [reflexivity|].
      split; [discriminate | reflexivity].
    + exists TyFunction. split; [reflexivity|].
      split; [discriminate | reflexivity].
  - exists members, h'. split; [done|]. split; [done|].
    eapply (Hdistinct 1 2); [lia | reflexivity..].
Defined.




(** ** Failures and results of the groups *)

Section GroupOutcomes.
Variable code : FnId -> Caller -> Callee.
Variable user_run : string -> option (Caller -> Value -> Callee).



End GroupOutcomes.




(** ** Stacked decorators *)

Lemma add_middleware_chain a o l mw t fn (h : Heap) :
  h !! a = Some o ->
  issubclass (ob_type o) TyMiddlewareChain = true ->
  ob_attrs o !! "collection" = Some (AList l) ->
  type_of mw h = (Done t, h) ->
  issubclass t TyMiddleware = true ->
  getattr mw "fn" h = (Done fn, h) ->
  add_middleware (VRef a) mw h = (Done mw, <[a := chain_added o l mw fn]> h).
Proof.
  intros Ha Hcls Hl Ht Hsub Hfn. unfold add_middleware.
  rewrite (mbind_done _ _ _ _ _ (type_of_ref _ _ _ Ha)), Hcls.
  by eapply MiddlewareChain_add_middleware_spec.
Qed.

Lemma chain_added_collection o l mw fn :
  ob_attrs (chain_added o l mw fn) !! "collection" = Some (AList (l ++ [mw])).
Proof.
  unfold chain_added. cbn [ob_attrs]. case_bool_decide.
  - rewrite lookup_insert_ne by done. by rewrite lookup_insert_eq.
  - by rewrite lookup_insert_eq.
Qed.

(** X17: two decorators stacked on a coroutine function [f] (lines
    388-410) grow one chain: the first application creates the chain and
    the adapter of [f], the second returns the same chain; its sequence
    is the adapter of [f], then the first decorator's middleware, then
    the second's, and its [fn] is [f]. *)
Theorem middleware_stacks f outer1 outer2 t1 t2 f1 f2 (h : Heap) :
  iscoroutinefunction f = true ->
  type_of outer1 h = (Done t1, h) ->
  issubclass t1 TyMiddleware = true ->
  getattr outer1 "fn" h = (Done f1, h) ->
  type_of outer2 h = (Done t2, h) ->
  issubclass t2 TyMiddleware = true ->
  getattr outer2 "fn" h = (Done f2, h) ->
  let chain := VRef (length h) in
  exists h1 h2,
    decorator outer1 f h = (Done chain, h1) /\
    decorator outer2 chain h1 = (Done chain, h2) /\
    get_list chain "collection" h2
      = (Done [VRef (S (length h)); outer1; outer2], h2) /\
    h2 !! S (length h) = Some (adapter f) /\
    getattr chain "fn" h2 = (Done (AVal f), h2) /\
    length h2 = S (S (length h)) /\
    (forall b, b < length h -> h2 !! b = h !! b).
Proof.
  intros Hco Ht1 Hs1 Hf1 Ht2 Hs2 Hf2 chain.
  set (n := length h) in *.
  assert (Hf : exists name, f = VFunc true name).
  { destruct f as [| | | | | |[] name| | |]; try discriminate.
    by exists name. }
  destruct Hf as [name ->].
  set (f := VFunc true name) in *.
  set (o0 := empty_collection TyMiddlewareChain).
  set (ha := (h ++ [o0]) ++ [adapter f]).
  set (o1 := chain_added o0 [] (VRef (S n)) (AVal f)).
  set (o2 := chain_added o1 [VRef (S n)] outer1 f1).
  set (o3 := chain_added o2 [VRef (S n); outer1] outer2 f2).
  assert (Hlen0 : length (h ++ [o0]) = S n)
    by (rewrite length_app; simpl; unfold n; lia).
  assert (Hlena : length ha = S (S n))
    by (unfold ha; rewrite length_app, Hlen0; simpl; lia).
  assert (Hna : ha !! n = Some o0).
  { unfold ha. rewrite lookup_app_l by lia. by apply list_lookup_middle. }
  assert (Hsa : ha !! S n = Some (adapter f)).
  { unfold ha. by apply list_lookup_middle. }
  assert (Hframe : forall v t, type_of v h = (Done t, h) ->
            forall o', type_of v (<[n := o']> ha)
                       = (Done t, <[n := o']> ha)).
  { intros v t Hv o'. apply type_of_insert_ne; [by eapply type_of_lt|].
    unfold ha. by do 2 apply type_of_app. }
  assert (Hframe' : forall v x, type_of v h = (Done x.1, h) ->
            getattr v "fn" h = (Done x.2, h) ->
            forall o', getattr v "fn" (<[n := o']> ha)
                       = (Done x.2, <[n := o']> ha)).
  { intros v x Hv Hg o'. apply getattr_insert_ne; [by eapply type_of_lt|].
    unfold ha. by do 2 apply getattr_app. }
  assert (Hadd1 : add_middleware (VRef n) (VRef (S n)) ha
                  = (Done (VRef (S n)), <[n := o1]> ha)).
  { eapply (add_middleware_chain n o0 [] _ TyMiddlewareFunction);
      try done.
    - by rewrite (type_of_ref _ _ _ Hsa).
    - by apply (getattr_ref _ _ _ _ _ Hsa). }
  assert (Hn1 : <[n := o1]> ha !! n = Some o1)
    by (apply list_lookup_insert_eq; lia).
  assert (Hadd2 : add_middleware (VRef n) outer1 (<[n := o1]> ha)
                  = (Done outer1, <[n := o2]> ha)).
  { rewrite (add_middleware_chain n o1 [VRef (S n)] outer1 t1 f1);
      try done.
    - by rewrite list_insert_insert_eq.
    - by apply Hframe.
    - by apply (Hframe' outer1 (t1, f1)). }
  assert (Hn2 : <[n := o2]> ha !! n = Some o2)
    by (apply list_lookup_insert_eq; lia).
  assert (Hadd3 : add_middleware (VRef n) outer2 (<[n := o2]> ha)
                  = (Done outer2, <[n := o3]> ha)).
  { rewrite (add_middleware_chain n o2 [VRef (S n); outer1] outer2 t2 f2);
      try done.
    - by rewrite list_insert_insert_eq.
    - by apply Hframe.
    - by apply (Hframe' outer2 (t2, f2)). }
  assert (Hn3 : <[n := o3]> ha !! n = Some o3)
    by (apply list_lookup_insert_eq; lia).
  exists (<[n := o2]> ha), (<[n := o3]> ha).
  split; [|split; [|split; [|split; [|split; [|split]]]]].
  - assert (Htf : forall g : Heap, type_of f g = (Done TyFunction, g))
      by done.
    assert (Hloop : collection_of_loop (VRef n) [f; outer1] (h ++ [o0])
                    = (Done tt, <[n := o2]> ha)).
    { cbn [collection_of_loop].
      rewrite (mbind_done _ _ _ _ _
                 (isinstance_spec _ _ TyMiddleware _ (Htf (h ++ [o0])))).
      assert (issubclass TyFunction TyMiddleware = false) as -> by done.
      cbn [negb]. unfold as_middleware.
      rewrite (mbind_done _ _ _ _ _
                 (MiddlewareFunction_new_coroutine f (h ++ [o0]) eq_refl)).
      rewrite Hlen0. fold ha.
      rewrite (mbind_done _ _ _ _ _ Hadd1).
      rewrite (mbind_done _ _ _ _ _
                 (isinstance_spec _ _ TyMiddleware _ (Hframe _ _ Ht1 o1))).
      rewrite Hs1. cbn [negb]. rewrite mbind_ret.
      by rewrite (mbind_done _ _ _ _ _ Hadd2). }
    unfold decorator.
    rewrite (mbind_done _ _ _ _ _
               (isinstance_spec _ _ TyMiddlewareChain _ (Htf h))).
    assert (issubclass TyFunction TyMiddlewareChain = false) as -> by done.
    unfold chain_of, collection_of.
    rewrite (mbind_done _ _ _ _ _ (MiddlewareChain_new_spec h)).
    fold n o0. by rewrite (mbind_done _ _ _ _ _ Hloop).
  - unfold decorator.
    rewrite (mbind_done _ _ _ _ _
      (isinstance_spec _ _ TyMiddlewareChain _ (type_of_ref _ _ _ Hn2))).
    assert (issubclass (ob_type o2) TyMiddlewareChain = true) as -> by done.
    by rewrite (mbind_done _ _ _ _ _ Hadd3).
  - apply (get_list_ref _ _ _ _ Hn3). apply chain_added_collection.
  - rewrite list_lookup_insert_ne by lia. done.
  - apply (getattr_ref _ _ _ _ _ Hn3). by vm_compute.
  - by rewrite length_insert.
  - intros b Hb. rewrite list_lookup_insert_ne by (unfold n in *; lia).
    unfold ha. rewrite !lookup_app_l; [done| |]; rewrite ?length_app;
      unfold n in *; simpl; lia.
Qed.

Lemma middleware_stacks_witness :
  exists h1 h2,
    decorator (VRef 0) (VFunc true "A") decorator_fixture
      = (Done (VRef 1), h1) /\
    decorator (VRef 0) (VRef 1) h1 = (Done (VRef 1), h2) /\
    get_list (VRef 1) "collection" h2 = (Done [VRef 2; VRef 0; VRef 0], h2) /\
    getattr (VRef 1) "fn" h2 = (Done (AVal (VFunc true "A")), h2).
Proof.
  destruct (middleware_stacks (VFunc true "A") (VRef 0) (VRef 0)
              TyMiddlewareFunction TyMiddlewareFunction
              (AVal (VFunc true "B")) (AVal (VFunc true "B"))
              decorator_fixture)
    as (h1 & h2 & H1 & H2 & Hl & _ & Hfn & _); try reflexivity.
  by exists h1, h2.
Defined.

Section InjectorInChain.
Variable code : FnId -> Caller -> Callee.
Variable user_run : string -> option (Caller -> Value -> Callee).

End InjectorInChain.

